(** * Static discovery of test classes: avocado/core/safeloader/core.py

    A shallow embedding of the class-hierarchy resolver
    ([_examine_class], [_examine_same_module]) and of the discovery driver
    ([find_python_tests]) together with the properties the specification
    states about them.

    Conventions of the embedding:
    - a Python call that may raise, or whose recursion may not bottom out,
      returns an [outcome];
    - the recursion of [_examine_class] is bounded by a fuel argument that
      counts nested calls; [OutOfFuel] stands for a recursion deeper than
      the bound (a recursion that no bound contains is one that CPython
      cuts off with RecursionError: the call returns nothing);
    - the lists and sets that the Python code mutates in place (`parents`,
      `info`, `disabled`) are threaded through the calls and returned. *)

From Stdlib Require Import String Ascii List.
From stdpp Require Import base decidable option list gmap strings.
Import ListNotations.

Local Open Scope string_scope.
Local Open Scope list_scope.

(** ** Outcomes of a call *)

Inductive exn : Type :=
| ClassNotSuitable
| AttributeError
| ValueError
| ParseError
| NotFoundError.

Inductive outcome (A : Type) : Type :=
| Done (a : A)
| Raise (e : exn)
| OutOfFuel.

Arguments Done {A} a.
Arguments Raise {A} e.
Arguments OutOfFuel {A}.

Definition outcome_bind {A B : Type} (f : A → outcome B) (m : outcome A)
  : outcome B :=
  match m with
  | Done a => f a
  | Raise e => Raise e
  | OutOfFuel => OutOfFuel
  end.

#[global] Instance outcome_mbind : MBind outcome := @outcome_bind.
#[global] Instance outcome_mret : MRet outcome := @Done.

(** ** The syntax tree, as far as the loader looks at it *)

Module ast.

(** Expressions that can stand in the base list of a class statement.
    The loader tests `isinstance(_, ast.Name)` and the presence of the
    attributes `value`, `id` and `attr`; `Name` has `id`, `Attribute` has
    `value` and `attr`, `Subscript` has `value` only, `Call` has none of
    them. *)
Inductive expr : Type :=
| Name (id : string)
| Attribute (value : expr) (attr : string)
| Subscript (value : expr) (slice : expr)
| Call (func : expr).

(** Modelled from the spec: docstring.py (check_docstring_directive,
    get_docstring_directives, get_docstring_directives_tags,
    get_docstring_directives_requirements) is not among the sources.
    Following §3 and §4.2 a docstring is represented by the directive set
    it parses to: the flag keywords it carries, a set of tags and an
    ordered sequence of requirements; an absent docstring is the empty
    directive set. *)
Record DirectiveSet : Type := {
  flags : list string;
  tags : gset string;
  requirements : list string
}.

Inductive stmt : Type :=
| FunctionDef (name : string) (docstring : DirectiveSet)
| OtherStmt.

Record ClassDef : Type := {
  name : string;
  bases : list expr;
  docstring : DirectiveSet;
  body : list stmt
}.

Definition get_docstring (klass : ClassDef) : DirectiveSet :=
  docstring klass.

End ast.

Import ast.

#[global] Instance expr_eq_dec : EqDecision expr.
Proof. solve_decision. Defined.

Definition no_directives : DirectiveSet :=
  {| flags := []; tags := ∅; requirements := [] |}.

(** Modelled from the spec: `get_docstring_directives` of docstring.py;
    §4.2, the flag keywords found in the docstring. *)
Definition get_docstring_directives (docstring : DirectiveSet) : list string :=
  flags docstring.

(** Modelled from the spec: `check_docstring_directive` of docstring.py;
    §4.2, whether the docstring carries the flag [directive]. *)
Definition check_docstring_directive (docstring : DirectiveSet)
    (directive : string) : bool :=
  bool_decide (directive ∈ get_docstring_directives docstring).

(** Modelled from the spec: `get_docstring_directives_tags` of docstring.py;
    §3, a set of strings. *)
Definition get_docstring_directives_tags (docstring : DirectiveSet)
  : gset string := tags docstring.

(** Modelled from the spec: `get_docstring_directives_requirements` of
    docstring.py; §3, an ordered sequence in which duplicates stay. *)
Definition get_docstring_directives_requirements (docstring : DirectiveSet)
  : list string := requirements docstring.

(** ** Modules and the file system *)

(** Modelled from the spec: module.py (PythonModule) is not among the
    sources.  Of a loaded module the loader uses `path`, the table
    `imported_objects` (local name to the path-like string of what it was
    imported from), `is_matching_klass` (§4.1: the structural match of a
    class against the target identity) and `iter_classes()` (§4.1: the
    finite sequence of top-level classes in declaration order).  The
    loader asks `is_matching_klass` about a class only while
    `iter_classes()` stands at that class; the answer is taken to depend
    on the class statement alone. *)
Record PythonModule : Type := {
  path : string;
  imported_objects : gmap string string;
  is_matching_klass : ClassDef → bool;
  iter_classes : list ClassDef
}.

(** What lies outside the program: `PythonModule(path, module, klass)`
    (§4.1: fails with ParseError or NotFoundError),
    `PathFinder.find_spec(name, paths)` reduced to the `origin` of the spec
    it finds, and `sys.path`. *)
Record World : Type := {
  load_module : string → string → string → exn + PythonModule;
  find_spec : string → list string → option string;
  sys_path : list string
}.

(** ** os.path and str helpers (posix, separator "/") *)

Definition is_sep (c : ascii) : bool := Ascii.eqb c "/"%char.

(** [rpartition s] cuts [s] at its last separator. *)
Fixpoint rpartition (s : string) : option (string * string) :=
  match s with
  | EmptyString => None
  | String c s' =>
      match rpartition s' with
      | Some (h, t) => Some (String c h, t)
      | None => if is_sep c then Some (EmptyString, s') else None
      end
  end.

(** `s.rsplit(os.path.sep, 2)` *)
Definition rsplit2 (s : string) : list string :=
  match rpartition s with
  | None => [s]
  | Some (h, t2) =>
      match rpartition h with
      | None => [h; t2]
      | Some (h', t1) => [h'; t1; t2]
      end
  end.

Fixpoint all_sep (s : string) : bool :=
  match s with
  | EmptyString => true
  | String c s' => is_sep c && all_sep s'
  end.

Fixpoint rstrip_sep (s : string) : string :=
  match s with
  | EmptyString => EmptyString
  | String c s' =>
      match rstrip_sep s' with
      | EmptyString => if is_sep c then EmptyString else String c EmptyString
      | r => String c r
      end
  end.

(** `os.path.dirname` *)
Definition dirname (p : string) : string :=
  match rpartition p with
  | None => EmptyString
  | Some (h, _) =>
      let head := String.append h "/" in
      if all_sep head then head else rstrip_sep head
  end.

(** `os.path.basename` *)
Definition basename (p : string) : string :=
  match rpartition p with
  | None => p
  | Some (_, t) => t
  end.

(** ** core.py *)

Definition MethodInfo : Type := string * gset string * list string.

Definition method_name (test : MethodInfo) : string := test.1.1.
Definition method_tags (test : MethodInfo) : gset string := test.1.2.
Definition method_requirements (test : MethodInfo) : list string := test.2.

(** The body of the loop `for st in statement_body:` of `get_methods_info`. *)
Definition methods_info_step (class_tags : gset string)
    (class_requirements : list string)
    (methods_info : list MethodInfo) (st : stmt) : list MethodInfo :=
  match st with
  | FunctionDef st_name st_doc =>
      if String.prefix "test" st_name then
        let mt_tags := get_docstring_directives_tags st_doc ∪ class_tags in
        let mt_requirements :=
          get_docstring_directives_requirements st_doc
            ++ class_requirements in
        let methods := map method_name methods_info in
        if bool_decide (st_name ∈ methods) then methods_info
        else methods_info ++ [(st_name, mt_tags, mt_requirements)]
      else methods_info
  | OtherStmt => methods_info
  end.

Definition get_methods_info (statement_body : list stmt)
    (class_tags : gset string) (class_requirements : list string)
  : list MethodInfo :=
  fold_left (methods_info_step class_tags class_requirements)
    statement_body [].

Definition _extend_test_list (current new : list MethodInfo)
  : list MethodInfo :=
  fold_left
    (fun current test =>
       let test_method_name := method_name test in
       if bool_decide (test_method_name ∈ map method_name current)
       then current else current ++ [test])
    new current.

(** `_get_attributes_for_further_examination(parent, module)`: the path,
    module and class under which a parent is to be looked for. *)
Definition _get_attributes_for_further_examination (parent : expr)
    (module : PythonModule) : exn + (string * string * string) :=
  let qualified (value : expr) (attr : option string) :=
    match value with
    | Name id =>
        match imported_objects module !! id with
        | None => inl ClassNotSuitable
        | Some _parent =>
            let parent_path := dirname _parent in
            let parent_module := basename _parent in
            match attr with
            | Some parent_class =>
                inr (parent_path, parent_module, parent_class)
            | None => inl AttributeError
            end
        end
    | _ => inl ClassNotSuitable
    end in
  match parent with
  | Attribute value attr => qualified value (Some attr)
  | Subscript value _ => qualified value None
  | Name id =>
      match imported_objects module !! id with
      | None => inl ClassNotSuitable
      | Some _parent =>
          match rsplit2 _parent with
          | [parent_path; parent_module; parent_class] =>
              inr (parent_path, parent_module, parent_class)
          | _ => inl ValueError
          end
      end
  | Call _ => inl AttributeError
  end.

(** The result of `_examine_class`: `(info, disabled, match)`. *)
Definition Examined : Type := list MethodInfo * gset string * bool.

(** `_match is not match` followed by `match = _match`, on booleans. *)
Definition take_match (match_ _match : bool) : bool :=
  if bool_decide (_match ≠ match_) then _match else match_.

(** The result of `find_python_tests` is an `OrderedDict`: assigning to a
    key that is present replaces its value where it stands, assigning to a
    new key appends it. *)
Definition ResultMap : Type := list (string * list MethodInfo).

Fixpoint odict_set (key : string) (value : list MethodInfo) (d : ResultMap)
  : ResultMap :=
  match d with
  | [] => [(key, value)]
  | (k, v) :: d =>
      if bool_decide (k = key) then (k, value) :: d
      else (k, v) :: odict_set key value d
  end.

Fixpoint odict_get (key : string) (d : ResultMap)
  : option (list MethodInfo) :=
  match d with
  | [] => None
  | (k, v) :: d => if bool_decide (k = key) then Some v else odict_get key d
  end.

Definition odict_keys (d : ResultMap) : list string := map fst d.

Section Resolver.

Context (w : World).
Context (target_module target_class : string).
Context (determine_match : PythonModule → ClassDef → DirectiveSet → bool).

Section Loops.

(** The recursive call `_examine_class(target_module, target_class,
    determine_match, path, class_name, match)`. *)
Context (examine : string → string → bool → outcome Examined).

(** The loop of `_examine_same_module` over the copy `parents[:]`.
    `parents.remove(parent)` deletes the very node being visited (syntax
    nodes compare by identity), so what is left of `parents` afterwards
    is [kept]: the visited nodes that were not removed, in order. *)
Fixpoint same_module_loop (module : PythonModule) (todo kept : list expr)
    (info : list MethodInfo) (disabled : gset string) (match_ : bool)
  : outcome (list expr * list MethodInfo * gset string * bool) :=
  match todo with
  | [] => Done (kept, info, disabled, match_)
  | parent :: todo =>
      match parent with
      | Name parent_class =>
          '(_info, _disable, _match) ←
             examine (path module) parent_class match_;
          match _info with
          | [] =>
              same_module_loop module todo (kept ++ [parent])
                info disabled (take_match match_ _match)
          | _ :: _ =>
              same_module_loop module todo kept
                (_extend_test_list info _info) (disabled ∪ _disable)
                (take_match match_ _match)
          end
      | _ =>
          same_module_loop module todo (kept ++ [parent])
            info disabled match_
      end
  end.

(** `_examine_same_module`; returns the mutated `parents`, `info` and
    `disabled` next to the match. *)
Definition _examine_same_module (parents : list expr)
    (info : list MethodInfo) (disabled : gset string) (match_ : bool)
    (module : PythonModule)
  : outcome (list expr * list MethodInfo * gset string * bool) :=
  same_module_loop module parents [] info disabled match_.

(** The loop `for parent in parents:` over the parents that are left,
    written twice in core.py: in `_examine_class` (lines 174-198), where
    a parent's methods are merged with `_extend_test_list`, and in
    `find_python_tests` (lines 276-300), where they are merged with
    `info.extend`.  [merge] is that one difference. *)
Fixpoint other_module_loop
    (merge : list MethodInfo → list MethodInfo → list MethodInfo)
    (module : PythonModule) (parents : list expr)
    (info : list MethodInfo) (disabled : gset string) (match_ : bool)
  : outcome Examined :=
  match parents with
  | [] => Done (info, disabled, match_)
  | parent :: parents =>
      match _get_attributes_for_further_examination parent module with
      | inl ClassNotSuitable =>
          other_module_loop merge module parents info disabled match_
      | inl e => Raise e
      | inr (parent_path, parent_module, parent_class) =>
          let modules_paths :=
            [parent_path; dirname (path module)] ++ sys_path w in
          match find_spec w parent_module modules_paths with
          | None =>
              other_module_loop merge module parents info disabled match_
          | Some origin =>
              '(_info, _disabled, _match) ←
                 examine origin parent_class match_;
              match _info with
              | [] =>
                  other_module_loop merge module parents
                    info disabled (take_match match_ _match)
              | _ :: _ =>
                  other_module_loop merge module parents
                    (merge info _info) (disabled ∪ _disabled)
                    (take_match match_ _match)
              end
          end
      end
  end.

(** The loop `for klass in module.iter_classes():` of `_examine_class`. *)
Fixpoint examine_class_loop (module : PythonModule) (class_name : string)
    (klasses : list ClassDef)
    (info : list MethodInfo) (disabled : gset string) (match_ : bool)
  : outcome Examined :=
  match klasses with
  | [] => Done (info, disabled, match_)
  | klass :: klasses =>
      if bool_decide (class_name ≠ name klass) then
        examine_class_loop module class_name klasses info disabled match_
      else
        let docstring := get_docstring klass in
        let match_ :=
          if negb match_ then determine_match module klass docstring
          else match_ in
        let info :=
          get_methods_info (body klass)
            (get_docstring_directives_tags docstring)
            (get_docstring_directives_requirements docstring) in
        let parents := bases klass in
        '(parents, info, disabled, match_) ←
           _examine_same_module parents info disabled match_ module;
        '(info, disabled, match_) ←
           other_module_loop _extend_test_list module parents
             info disabled match_;
        examine_class_loop module class_name klasses info disabled match_
  end.

Definition examine_class_body (path : string) (class_name : string)
    (match_ : bool) : outcome Examined :=
  match load_module w path target_module target_class with
  | inl e => Raise e
  | inr module =>
      examine_class_loop module class_name (iter_classes module)
        [] ∅ match_
  end.

(** The loop `for klass in module.iter_classes():` of `find_python_tests`.
    (`disabled.update(disabled)` on line 305 changes nothing and is left
    out.) *)
Fixpoint find_python_tests_loop (module : PythonModule)
    (klasses : list ClassDef) (result : ResultMap) (disabled : gset string)
  : outcome (ResultMap * gset string) :=
  match klasses with
  | [] => Done (result, disabled)
  | klass :: klasses =>
      let docstring := get_docstring klass in
      if check_docstring_directive docstring "disable" then
        find_python_tests_loop module klasses result
          (disabled ∪ {[name klass]})
      else if check_docstring_directive docstring "enable" then
        let info :=
          get_methods_info (body klass)
            (get_docstring_directives_tags docstring)
            (get_docstring_directives_requirements docstring) in
        find_python_tests_loop module klasses
          (odict_set (name klass) info result) disabled
      else
        let match_ :=
          if check_docstring_directive docstring "recursive" then true
          else is_matching_klass module klass in
        let info :=
          get_methods_info (body klass)
            (get_docstring_directives_tags docstring)
            (get_docstring_directives_requirements docstring) in
        let parents := bases klass in
        '(parents, info, disabled, match_) ←
           _examine_same_module parents info disabled match_ module;
        '(info, disabled, match_) ←
           other_module_loop (fun info _info => info ++ _info) module parents
             info disabled match_;
        if (match_ : bool) then
          find_python_tests_loop module klasses
            (odict_set (name klass) info result) disabled
        else
          find_python_tests_loop module klasses result disabled
  end.

End Loops.

Fixpoint _examine_class (fuel : nat) (path : string) (class_name : string)
    (match_ : bool) : outcome Examined :=
  match fuel with
  | O => OutOfFuel
  | S fuel => examine_class_body (_examine_class fuel) path class_name match_
  end.

Definition find_python_tests (fuel : nat) (path : string)
  : outcome (ResultMap * gset string) :=
  match load_module w path target_module target_class with
  | inl e => Raise e
  | inr module =>
      find_python_tests_loop (_examine_class fuel) module
        (iter_classes module) [] ∅
  end.

End Resolver.

Definition _determine_match_avocado (module : PythonModule)
    (klass : ClassDef) (docstring : DirectiveSet) : bool :=
  let directives := get_docstring_directives docstring in
  if bool_decide ("disable" ∈ directives) then true
  else if bool_decide ("enable" ∈ directives) then true
  else if bool_decide ("recursive" ∈ directives) then true
  else is_matching_klass module klass.

Definition find_avocado_tests (w : World) (fuel : nat) (path : string)
  : outcome (ResultMap * gset string) :=
  find_python_tests w "avocado" "Test" _determine_match_avocado fuel path.

Definition _determine_match_unittest (module : PythonModule)
    (klass : ClassDef) (docstring : DirectiveSet) : bool :=
  is_matching_klass module klass.

Definition find_python_unittests (w : World) (fuel : nat) (path : string)
  : outcome ResultMap :=
  '(found, _) ←
     find_python_tests w "unittest" "TestCase" _determine_match_unittest
       fuel path;
  Done found.

(** ** Concrete file sets

    A file set is a list of parsed files.  Loading a path that is not in it
    fails; the module finder looks, directory by directory, for the package
    `<dir>/<name>/__init__.py` and then for the module `<dir>/<name>.py`. *)

Definition FileSet : Type := list (string * PythonModule).

Fixpoint fs_lookup (files : FileSet) (p : string) : option PythonModule :=
  match files with
  | [] => None
  | (q, m) :: files => if bool_decide (q = p) then Some m else fs_lookup files p
  end.

Definition fs_load (files : FileSet) (p : string) (_ _ : string)
  : exn + PythonModule :=
  match fs_lookup files p with
  | Some m => inr m
  | None => inl NotFoundError
  end.

Fixpoint fs_find_spec (files : FileSet) (module_name : string)
    (paths : list string) : option string :=
  match paths with
  | [] => None
  | d :: paths =>
      let package := String.append d
                       (String.append "/" (String.append module_name "/__init__.py")) in
      let plain := String.append d
                     (String.append "/" (String.append module_name ".py")) in
      if bool_decide (is_Some (fs_lookup files package)) then Some package
      else if bool_decide (is_Some (fs_lookup files plain)) then Some plain
      else fs_find_spec files module_name paths
  end.

Definition world_of (files : FileSet) (search_path : list string) : World :=
  {| load_module := fs_load files;
     find_spec := fs_find_spec files;
     sys_path := search_path |}.

(** Modelled from the spec: `is_matching_klass` of module.py is not among
    the sources.  §4.1: a class is a structural match when its literal base
    is the target identity; here, when one of its bases is a plain name
    that the file's imports bind to the target class. *)
Definition matches_by_name (klass_imports : list string) (klass : ClassDef)
  : bool :=
  existsb
    (fun base =>
       match base with
       | Name id => bool_decide (id ∈ klass_imports)
       | _ => false
       end)
    (bases klass).

Definition test_method (st_name : string) (st_tags : list string) : stmt :=
  FunctionDef st_name
    {| flags := []; tags := list_to_set st_tags; requirements := [] |}.

Definition with_flags (fl : list string) : DirectiveSet :=
  {| flags := fl; tags := ∅; requirements := [] |}.

Definition with_tags (tg : list string) : DirectiveSet :=
  {| flags := []; tags := list_to_set tg; requirements := [] |}.

(** The entry of a method with the tags [tg] and no requirement. *)
Definition entry (method : string) (tg : list string) : MethodInfo :=
  (method, list_to_set tg, []).

(** The installed `avocado` package: `avocado/__init__.py` only imports
    names, it holds no class statement. *)
Definition avocado_init : string * PythonModule :=
  ("/usr/lib/python3/site-packages/avocado/__init__.py",
   {| path := "/usr/lib/python3/site-packages/avocado/__init__.py";
      imported_objects := ∅;
      is_matching_klass := fun _ => false;
      iter_classes := [] |}).

Definition site_packages : list string := ["/usr/lib/python3/site-packages"].

(** Scenario C of the specification:
<<
   from avocado import Test as GenericTestBase
   class Base(GenericTestBase):
       def test_a(self): ...
   class Child(Base):
       def test_b(self): ...
>> *)
Module ScenarioC.

Definition Base : ClassDef :=
  {| name := "Base"; bases := [Name "GenericTestBase"];
     docstring := no_directives; body := [test_method "test_a" []] |}.

Definition Child : ClassDef :=
  {| name := "Child"; bases := [Name "Base"];
     docstring := no_directives; body := [test_method "test_b" []] |}.

Definition file : PythonModule :=
  {| path := "/tests/test_c.py";
     imported_objects := {[ "GenericTestBase" := "/tests/avocado/Test" ]};
     is_matching_klass := matches_by_name ["GenericTestBase"];
     iter_classes := [Base; Child] |}.

Definition world : World :=
  world_of [("/tests/test_c.py", file); avocado_init] site_packages.

End ScenarioC.

(** Scenario D of the specification: a file without imports that declares
<<
   class Child(unresolved.Foreign):
       def test_x(self): ...
       def test_y(self): ...
>> *)
Module ScenarioD.

Definition Child : ClassDef :=
  {| name := "Child"; bases := [Attribute (Name "unresolved") "Foreign"];
     docstring := no_directives;
     body := [test_method "test_x" []; test_method "test_y" []] |}.

Definition file : PythonModule :=
  {| path := "/tests/test_d.py";
     imported_objects := ∅;
     is_matching_klass := matches_by_name [];
     iter_classes := [Child] |}.

Definition world : World :=
  world_of [("/tests/test_d.py", file); avocado_init] site_packages.

End ScenarioD.

(** A subclass and its cross-file ancestor declare the same test method:
<<
   # /tests/test_child.py            # /tests/base.py
   from base import Base             from avocado import Test
   class Child(Base):                class Base(Test):
       def test_x(self):                 def test_x(self):
           ":avocado: tags=child"            ":avocado: tags=base"
>> *)
Module CrossFileOverride.

Definition Child : ClassDef :=
  {| name := "Child"; bases := [Name "Base"];
     docstring := no_directives; body := [test_method "test_x" ["child"]] |}.

Definition Base : ClassDef :=
  {| name := "Base"; bases := [Name "Test"];
     docstring := no_directives; body := [test_method "test_x" ["base"]] |}.

Definition child_file : PythonModule :=
  {| path := "/tests/test_child.py";
     imported_objects := {[ "Base" := "/tests/base/Base" ]};
     is_matching_klass := matches_by_name [];
     iter_classes := [Child] |}.

Definition base_file : PythonModule :=
  {| path := "/tests/base.py";
     imported_objects := {[ "Test" := "/tests/avocado/Test" ]};
     is_matching_klass := matches_by_name ["Test"];
     iter_classes := [Base] |}.

Definition world : World :=
  world_of [("/tests/test_child.py", child_file);
            ("/tests/base.py", base_file); avocado_init] site_packages.

End CrossFileOverride.

(** Scenario C with a class-level tag on the ancestor:
<<
   from avocado import Test
   class Base(Test):
       ":avocado: tags=slow"
       def test_a(self): ...
   class Child(Base):
       def test_b(self): ...
>> *)
Module AncestorTags.

Definition Base : ClassDef :=
  {| name := "Base"; bases := [Name "Test"];
     docstring := with_tags ["slow"]; body := [test_method "test_a" []] |}.

Definition Child : ClassDef :=
  {| name := "Child"; bases := [Name "Base"];
     docstring := no_directives; body := [test_method "test_b" []] |}.

Definition file : PythonModule :=
  {| path := "/tests/test_tags.py";
     imported_objects := {[ "Test" := "/tests/avocado/Test" ]};
     is_matching_klass := matches_by_name ["Test"];
     iter_classes := [Base; Child] |}.

Definition world : World :=
  world_of [("/tests/test_tags.py", file); avocado_init] site_packages.

(** What discovery finds in it. *)
Definition found : ResultMap :=
  [("Base", [entry "test_a" ["slow"]]);
   ("Child", [entry "test_b" []; entry "test_a" ["slow"]])].

End AncestorTags.

(** Scenarios A and B of the specification in one file, and a class that
    carries both directives:
<<
   class Foo:
       ":avocado: enable"
       def test_one(self): ...
   class Bar:
       ":avocado: disable"
       def test_two(self): ...
   class Baz:
       ":avocado: enable" ":avocado: disable"
       def test_three(self): ...
>> *)
Module Directives.

Definition Foo : ClassDef :=
  {| name := "Foo"; bases := []; docstring := with_flags ["enable"];
     body := [test_method "test_one" []] |}.

Definition Bar : ClassDef :=
  {| name := "Bar"; bases := []; docstring := with_flags ["disable"];
     body := [test_method "test_two" []] |}.

Definition Baz : ClassDef :=
  {| name := "Baz"; bases := [];
     docstring := with_flags ["enable"; "disable"];
     body := [test_method "test_three" []] |}.

Definition file : PythonModule :=
  {| path := "/tests/test_directives.py";
     imported_objects := ∅;
     is_matching_klass := matches_by_name [];
     iter_classes := [Foo; Bar; Baz] |}.

Definition world : World :=
  world_of [("/tests/test_directives.py", file)] site_packages.

(** What discovery finds in it. *)
Definition found : ResultMap := [("Foo", [entry "test_one" []])].

Definition set_aside : gset string := {["Bar"; "Baz"]}.

End Directives.

(** Files that declare two top-level classes of one name. *)
Module SameName.

Definition one_class (fl : list string) (method : string) : ClassDef :=
  {| name := "Foo"; bases := []; docstring := with_flags fl;
     body := [test_method method []] |}.

Definition file_of (klasses : list ClassDef) : PythonModule :=
  {| path := "/tests/test_foo.py";
     imported_objects := ∅;
     is_matching_klass := matches_by_name [];
     iter_classes := klasses |}.

Definition world_with (klasses : list ClassDef) : World :=
  world_of [("/tests/test_foo.py", file_of klasses)] site_packages.

(** <<class Foo: ":avocado: enable" ...; class Foo: ":avocado: enable" ...>> *)
Definition enable_twice : list ClassDef :=
  [one_class ["enable"] "test_a"; one_class ["enable"] "test_b"].

(** <<class Foo: ":avocado: enable" ...; class Foo: ":avocado: disable" ...>> *)
Definition enable_then_disable : list ClassDef :=
  [one_class ["enable"] "test_a"; one_class ["disable"] "test_b"].

(** The second class carries both directives. *)
Definition enable_then_both : list ClassDef :=
  [one_class ["enable"] "test_a"; one_class ["enable"; "disable"] "test_b"].

End SameName.

(** A class named like the base it imports:
<<
   from avocado import Test
   class Test(Test):
       def test_a(self): ...
>> *)
Module SelfReference.

Definition Test : ClassDef :=
  {| name := "Test"; bases := [Name "Test"];
     docstring := no_directives; body := [test_method "test_a" []] |}.

Definition file : PythonModule :=
  {| path := "/tests/test_self.py";
     imported_objects := {[ "Test" := "/tests/avocado/Test" ]};
     is_matching_klass := matches_by_name ["Test"];
     iter_classes := [Test] |}.

Definition world : World :=
  world_of [("/tests/test_self.py", file); avocado_init] site_packages.

End SelfReference.

(** ** Notions used in the statements *)

(** [agrees examine examine']: wherever the resolver [examine] comes back
    (with a result or an exception), [examine'] does the same. *)
Definition agrees (examine examine' : string → string → bool → outcome Examined)
  : Prop :=
  ∀ p c m, examine p c m ≠ OutOfFuel → examine' p c m = examine p c m.

(** [keeps_match examine]: given a true match flag, [examine] returns one. *)
Definition keeps_match (examine : string → string → bool → outcome Examined)
  : Prop :=
  ∀ p c info disabled m, examine p c true = Done (info, disabled, m) → m = true.

(** The calls that examining one parent can make: a plain name is looked up
    in the same module; a parent whose import resolves to a file is looked
    up there. *)
Definition parent_callees (w : World) (module : PythonModule) (parent : expr)
  : list (string * string) :=
  match parent with
  | Name id => [(path module, id)]
  | _ => []
  end ++
  match _get_attributes_for_further_examination parent module with
  | inr (parent_path, parent_module, parent_class) =>
      match find_spec w parent_module
              ([parent_path; dirname (path module)] ++ sys_path w) with
      | Some origin => [(origin, parent_class)]
      | None => []
      end
  | inl _ => []
  end.

(** The (file, class) pairs that the bases of the class [node.2] of the file
    [node.1] refer to. *)
Definition callees (w : World) (target_module target_class : string)
    (node : string * string) : list (string * string) :=
  match load_module w node.1 target_module target_class with
  | inl _ => []
  | inr module =>
      flat_map
        (λ klass,
           if bool_decide (name klass = node.2)
           then flat_map (parent_callees w module) (bases klass) else [])
        (iter_classes module)
  end.

Definition refers_to (w : World) (target_module target_class : string)
    (callee caller : string * string) : Prop :=
  In callee (callees w target_module target_class caller).

(** [_examine_class] comes back, with a result or with an exception, within
    some number of nested calls. *)
Definition terminates (w : World) (target_module target_class : string)
    (determine_match : PythonModule → ClassDef → DirectiveSet → bool)
    (p class_name : string) (match_ : bool) : Prop :=
  ∃ fuel,
    _examine_class w target_module target_class determine_match fuel
      p class_name match_ ≠ OutOfFuel.

(** From [fuel] on, [_examine_class] comes back from [node]. *)
Definition returns_from (w : World) (target_module target_class : string)
    (determine_match : PythonModule → ClassDef → DirectiveSet → bool)
    (fuel : nat) (node : string * string) : Prop :=
  ∀ fuel' m, (fuel ≤ fuel')%nat →
    _examine_class w target_module target_class determine_match fuel'
      node.1 node.2 m ≠ OutOfFuel.

(** [declared_by klass e]: the entry [e] was built by [get_methods_info]
    from a test method of [klass], with that method's and that class's
    docstring. *)
Definition declared_by (klass : ClassDef) (e : MethodInfo) : Prop :=
  ∃ st_name st_doc,
    In (FunctionDef st_name st_doc) (body klass)
    ∧ String.prefix "test" st_name = true
    ∧ e = (st_name,
           get_docstring_directives_tags st_doc
             ∪ get_docstring_directives_tags (get_docstring klass),
           get_docstring_directives_requirements st_doc
             ++ get_docstring_directives_requirements (get_docstring klass)).

(** [declared_in w tm tc e]: some class of some loadable file declares [e]. *)
Definition declared_in (w : World) (target_module target_class : string)
    (e : MethodInfo) : Prop :=
  ∃ p module klass,
    load_module w p target_module target_class = inr module
    ∧ In klass (iter_classes module)
    ∧ declared_by klass e.

(** The methods `get_methods_info` finds in the body of [klass] itself, as
    all three of its call sites compute them. *)
Definition own_methods (klass : ClassDef) : list MethodInfo :=
  get_methods_info (body klass)
    (get_docstring_directives_tags (get_docstring klass))
    (get_docstring_directives_requirements (get_docstring klass)).

(** [yields Q examine]: the method list that [examine] returns satisfies
    [Q]. *)
Definition yields (Q : list MethodInfo → Prop)
    (examine : string → string → bool → outcome Examined) : Prop :=
  ∀ p c m r, examine p c m = Done r → Q r.1.1.

(** [merges Q merge]: [merge] keeps [Q] when it adds a returned list to the
    current one. *)
Definition merges (Q : list MethodInfo → Prop)
    (merge : list MethodInfo → list MethodInfo → list MethodInfo) : Prop :=
  ∀ info _info, Q info → Q _info → Q (merge info _info).

Definition all_entries (P : MethodInfo → Prop) (info : list MethodInfo)
  : Prop :=
  ∀ e, In e info → P e.

Definition unique_names (info : list MethodInfo) : Prop :=
  NoDup (map method_name info).

(** What `find_python_tests` does with one class, as a relation between the
    result mapping and disabled set before and after it. *)
Inductive class_step (klass : ClassDef) (result : ResultMap)
    (disabled : gset string) : ResultMap → gset string → Prop :=
| step_disable :
    check_docstring_directive (get_docstring klass) "disable" = true →
    class_step klass result disabled result (disabled ∪ {[name klass]})
| step_enable :
    check_docstring_directive (get_docstring klass) "disable" = false →
    check_docstring_directive (get_docstring klass) "enable" = true →
    class_step klass result disabled
      (odict_set (name klass) (own_methods klass) result) disabled
| step_matched info disabled' :
    check_docstring_directive (get_docstring klass) "disable" = false →
    check_docstring_directive (get_docstring klass) "enable" = false →
    disabled ⊆ disabled' →
    class_step klass result disabled
      (odict_set (name klass) info result) disabled'
| step_unmatched disabled' :
    check_docstring_directive (get_docstring klass) "disable" = false →
    check_docstring_directive (get_docstring klass) "enable" = false →
    disabled ⊆ disabled' →
    class_step klass result disabled result disabled'.

(** A unittest file:
<<
   from unittest import TestCase
   class Plain(TestCase):
       def test_x(self): ...
   class Other:
       def test_y(self): ...
>> *)
Module UnittestFile.

Definition Plain : ClassDef :=
  {| name := "Plain"; bases := [Name "TestCase"];
     docstring := no_directives; body := [test_method "test_x" []] |}.

Definition Other : ClassDef :=
  {| name := "Other"; bases := [];
     docstring := no_directives; body := [test_method "test_y" []] |}.

Definition file : PythonModule :=
  {| path := "/tests/test_unit.py";
     imported_objects := {[ "TestCase" := "/tests/unittest/TestCase" ]};
     is_matching_klass := matches_by_name ["TestCase"];
     iter_classes := [Plain; Other] |}.

Definition world : World :=
  world_of [("/tests/test_unit.py", file)] site_packages.

End UnittestFile.

(** A class whose base is a call, and one whose base is a subscript of an
    imported name:
<<
   from collections import namedtuple
   from typing import Generic
   class Point(namedtuple("Point", "x y")):
       def test_a(self): ...
   class Box(Generic[T]):
       def test_b(self): ...
>> *)
Module UnsupportedBase.

Definition Point : ClassDef :=
  {| name := "Point"; bases := [Call (Name "namedtuple")];
     docstring := no_directives; body := [test_method "test_a" []] |}.

Definition Box : ClassDef :=
  {| name := "Box"; bases := [Subscript (Name "Generic") (Name "T")];
     docstring := no_directives; body := [test_method "test_b" []] |}.

Definition file_of (klasses : list ClassDef) : PythonModule :=
  {| path := "/tests/test_bases.py";
     imported_objects :=
       {[ "namedtuple" := "/tests/collections/namedtuple";
          "Generic" := "/tests/typing/Generic" ]};
     is_matching_klass := matches_by_name [];
     iter_classes := klasses |}.

Definition world_with (klasses : list ClassDef) : World :=
  world_of [("/tests/test_bases.py", file_of klasses)] site_packages.

End UnsupportedBase.

(** A class whose parent lives in a file that is found but cannot be
    parsed:
<<
   import broken
   class Child(broken.Base):
       ":avocado: recursive"
       def test_a(self): ...
>> *)
Module BrokenAncestor.

Definition Child : ClassDef :=
  {| name := "Child"; bases := [Attribute (Name "broken") "Base"];
     docstring := with_flags ["recursive"];
     body := [test_method "test_a" []] |}.

Definition file : PythonModule :=
  {| path := "/tests/test_child.py";
     imported_objects := {[ "broken" := "/tests/broken" ]};
     is_matching_klass := matches_by_name [];
     iter_classes := [Child] |}.

Definition world : World :=
  {| load_module := λ p _ _,
       if bool_decide (p = "/tests/test_child.py") then inr file
       else if bool_decide (p = "/tests/broken.py") then inl ParseError
       else inl NotFoundError;
     find_spec := λ module_name _,
       if bool_decide (module_name = "broken") then Some "/tests/broken.py"
       else None;
     sys_path := site_packages |}.

End BrokenAncestor.

(** ** Notions used in the further properties *)

(** What `get_methods_info` looks at in a class body: the `def` statements
    whose name starts with `test`. *)
Definition is_test_stmt (st : stmt) : bool :=
  match st with
  | FunctionDef st_name _ => String.prefix "test" st_name
  | OtherStmt => false
  end.

(** A class statement with the given body and class-level tags and
    requirements. *)
Definition class_of_body (statement_body : list stmt)
    (class_tags : gset string) (class_requirements : list string) : ClassDef :=
  {| name := ""; bases := [];
     docstring := {| flags := []; tags := class_tags;
                     requirements := class_requirements |};
     body := statement_body |}.

(** The number of separators in a path. *)
Fixpoint count_sep (s : string) : nat :=
  match s with
  | EmptyString => 0
  | String c s' => (if is_sep c then 1 else 0) + count_sep s'
  end.

(** A parent that the loop over the other modules passes over: its import
    cannot be resolved, or no file is found for it. *)
Definition unlocatable (w : World) (module : PythonModule) (parent : expr)
  : Prop :=
  _get_attributes_for_further_examination parent module = inl ClassNotSuitable
  ∨ ∃ parent_path parent_module parent_class,
      _get_attributes_for_further_examination parent module
        = inr (parent_path, parent_module, parent_class)
      ∧ find_spec w parent_module
          ([parent_path; dirname (path module)] ++ sys_path w) = None.

(** [no_disabled examine]: the disabled set that [examine] returns is
    empty. *)
Definition no_disabled (examine : string → string → bool → outcome Examined)
  : Prop :=
  ∀ p c m r, examine p c m = Done r → r.1.2 = ∅.

(** An outcome without the match flag that comes last in it. *)
Definition drop_match {A : Type} (o : outcome (A * bool)) : outcome A :=
  match o with
  | Done (a, _) => Done a
  | Raise e => Raise e
  | OutOfFuel => OutOfFuel
  end.

(** [match_blind examine]: but for the flag it returns, what [examine] does
    is the same whatever match flag it is given. *)
Definition match_blind (examine : string → string → bool → outcome Examined)
  : Prop :=
  ∀ p c m1 m2, drop_match (examine p c m1) = drop_match (examine p c m2).

(** The docstring carries one of the directives `disable`, `enable` and
    `recursive`. *)
Definition has_directive (docstring : DirectiveSet) : bool :=
  check_docstring_directive docstring "disable"
  || check_docstring_directive docstring "enable"
  || check_docstring_directive docstring "recursive".

(** Some class of some loadable file is accepted by `determine_match`. *)
Definition accepted_somewhere (w : World) (target_module target_class : string)
    (determine_match : PythonModule → ClassDef → DirectiveSet → bool) : Prop :=
  ∃ q module klass,
    load_module w q target_module target_class = inr module
    ∧ In klass (iter_classes module)
    ∧ determine_match module klass (get_docstring klass) = true.

(** Whether a base is written as a plain name. *)
Definition is_plain_name (parent : expr) : bool :=
  match parent with
  | Name _ => true
  | _ => false
  end.

(** * Properties *)

(** ** Outcomes *)

Lemma bind_Done {A B : Type} (f : A → outcome B) (m : outcome A) (b : B) :
  m ≫= f = Done b → ∃ a, m = Done a ∧ f a = Done b.
Proof. destruct m as [a| |]; simpl; intros H; try discriminate. by exists a. Qed.

Lemma bind_defined {A B : Type} (f : A → outcome B) (m : outcome A) :
  m ≫= f ≠ OutOfFuel → m ≠ OutOfFuel.
Proof. by destruct m. Qed.

(** ** More fuel does not change a result *)

Section Agreement.

Context (w : World) (target_module target_class : string).
Context (determine_match : PythonModule → ClassDef → DirectiveSet → bool).
Context (examine examine' : string → string → bool → outcome Examined).
Context (Hagrees : agrees examine examine').

Lemma same_module_loop_agrees module todo kept info disabled match_ :
  same_module_loop examine module todo kept info disabled match_ ≠ OutOfFuel →
  same_module_loop examine' module todo kept info disabled match_
  = same_module_loop examine module todo kept info disabled match_.
Proof.
  revert kept info disabled match_.
  induction todo as [|parent todo IH]; intros kept info disabled match_; [done|].
  destruct parent as [parent_class| | |]; simpl; try apply IH.
  intros Hdef.
  assert (examine (path module) parent_class match_ ≠ OutOfFuel) as Hcall
    by (intros E; rewrite E in Hdef; by apply Hdef).
  rewrite (Hagrees _ _ _ Hcall).
  destruct (examine (path module) parent_class match_) as [[[_info _dis] _m]| |];
    simpl in *; [|done..].
  destruct _info; by apply IH.
Qed.

Lemma other_module_loop_agrees merge module parents info disabled match_ :
  other_module_loop w examine merge module parents info disabled match_
    ≠ OutOfFuel →
  other_module_loop w examine' merge module parents info disabled match_
  = other_module_loop w examine merge module parents info disabled match_.
Proof.
  revert info disabled match_.
  induction parents as [|parent parents IH]; intros info disabled match_; [done|].
  simpl.
  destruct (_get_attributes_for_further_examination parent module)
    as [[]|[[parent_path parent_module] parent_class]]; try done; try apply IH.
  destruct (find_spec w _ _) as [origin|]; [|apply IH].
  intros Hdef.
  assert (examine origin parent_class match_ ≠ OutOfFuel) as Hcall
    by (intros E; rewrite E in Hdef; by apply Hdef).
  rewrite (Hagrees _ _ _ Hcall).
  destruct (examine origin parent_class match_) as [[[_info _dis] _m]| |];
    simpl in *; [|done..].
  destruct _info; by apply IH.
Qed.

Lemma examine_class_loop_agrees module class_name klasses info disabled match_ :
  examine_class_loop w determine_match examine module class_name klasses
    info disabled match_ ≠ OutOfFuel →
  examine_class_loop w determine_match examine' module class_name klasses
    info disabled match_
  = examine_class_loop w determine_match examine module class_name klasses
      info disabled match_.
Proof.
  revert info disabled match_.
  induction klasses as [|klass klasses IH]; intros info disabled match_; [done|].
  simpl. case_bool_decide; [apply IH|].
  unfold _examine_same_module. intros Hdef.
  pose proof (bind_defined _ _ Hdef) as Hsame.
  rewrite (same_module_loop_agrees _ _ _ _ _ _ Hsame).
  destruct (same_module_loop examine _ _ _ _ _ _)
    as [[[[parents info1] disabled1] match1]| |]; simpl in *; [|done..].
  pose proof (bind_defined _ _ Hdef) as Hother.
  rewrite (other_module_loop_agrees _ _ _ _ _ _ Hother).
  destruct (other_module_loop w examine _ _ _ _ _ _)
    as [[[info2 disabled2] match2]| |]; simpl in *; [|done..].
  by apply IH.
Qed.

Lemma examine_class_body_agrees p class_name match_ :
  examine_class_body w target_module target_class determine_match examine
    p class_name match_ ≠ OutOfFuel →
  examine_class_body w target_module target_class determine_match examine'
    p class_name match_
  = examine_class_body w target_module target_class determine_match examine
      p class_name match_.
Proof.
  unfold examine_class_body.
  destruct (load_module w p target_module target_class); [done|].
  apply examine_class_loop_agrees.
Qed.

Lemma find_python_tests_loop_agrees module klasses result disabled :
  find_python_tests_loop w examine module klasses result disabled ≠ OutOfFuel →
  find_python_tests_loop w examine' module klasses result disabled
  = find_python_tests_loop w examine module klasses result disabled.
Proof.
  revert result disabled.
  induction klasses as [|klass klasses IH]; intros result disabled; [done|].
  simpl.
  destruct (check_docstring_directive _ "disable"); [apply IH|].
  destruct (check_docstring_directive _ "enable"); [apply IH|].
  unfold _examine_same_module. intros Hdef.
  pose proof (bind_defined _ _ Hdef) as Hsame.
  rewrite (same_module_loop_agrees _ _ _ _ _ _ Hsame).
  destruct (same_module_loop examine _ _ _ _ _ _)
    as [[[[parents info1] disabled1] match1]| |]; simpl in *; [|done..].
  pose proof (bind_defined _ _ Hdef) as Hother.
  rewrite (other_module_loop_agrees _ _ _ _ _ _ Hother).
  destruct (other_module_loop w examine _ _ _ _ _ _)
    as [[[info2 disabled2] match2]| |]; simpl in *; [|done..].
  destruct match2; by apply IH.
Qed.

End Agreement.

Section Fuel.

Context (w : World) (target_module target_class : string).
Context (determine_match : PythonModule → ClassDef → DirectiveSet → bool).

Abbreviation examine_at fuel :=
  (_examine_class w target_module target_class determine_match fuel).

Lemma _examine_class_S fuel : agrees (examine_at fuel) (examine_at (S fuel)).
Proof.
  induction fuel as [|fuel IH]; intros p c m Hdef; [done|].
  change (examine_at (S (S fuel)) p c m)
    with (examine_class_body w target_module target_class determine_match
            (examine_at (S fuel)) p c m).
  change (examine_at (S fuel) p c m)
    with (examine_class_body w target_module target_class determine_match
            (examine_at fuel) p c m) in *.
  by apply examine_class_body_agrees.
Qed.

Lemma _examine_class_le (fuel fuel' : nat) :
  (fuel ≤ fuel')%nat → agrees (examine_at fuel) (examine_at fuel').
Proof.
  induction 1 as [|fuel' _ IH]; intros p c m Hdef; [done|].
  rewrite <- (IH p c m Hdef).
  apply _examine_class_S. by rewrite (IH p c m Hdef).
Qed.

Lemma find_python_tests_le (fuel fuel' : nat) p :
  (fuel ≤ fuel')%nat →
  find_python_tests w target_module target_class determine_match fuel p
    ≠ OutOfFuel →
  find_python_tests w target_module target_class determine_match fuel' p
  = find_python_tests w target_module target_class determine_match fuel p.
Proof.
  intros Hle. unfold find_python_tests.
  destruct (load_module w p target_module target_class); [done|].
  apply find_python_tests_loop_agrees. by apply _examine_class_le.
Qed.

End Fuel.

(** ** The match flag *)

Section Match.

Context (w : World) (target_module target_class : string).
Context (determine_match : PythonModule → ClassDef → DirectiveSet → bool).

Lemma same_module_loop_keeps examine module todo kept info disabled r :
  keeps_match examine →
  same_module_loop examine module todo kept info disabled true = Done r →
  r.2 = true.
Proof.
  intros Hkeeps. revert kept info disabled.
  induction todo as [|parent todo IH]; intros kept info disabled; simpl.
  { by intros [= <-]. }
  destruct parent as [parent_class| | |]; try apply IH.
  destruct (examine (path module) parent_class true)
    as [[[_info _dis] _m]| |] eqn:Hcall; simpl; [|done..].
  rewrite (Hkeeps _ _ _ _ _ Hcall).
  destruct _info; apply IH.
Qed.

Lemma other_module_loop_keeps examine merge module parents info disabled r :
  keeps_match examine →
  other_module_loop w examine merge module parents info disabled true = Done r →
  r.2 = true.
Proof.
  intros Hkeeps. revert info disabled.
  induction parents as [|parent parents IH]; intros info disabled; simpl.
  { by intros [= <-]. }
  destruct (_get_attributes_for_further_examination parent module)
    as [[]|[[parent_path parent_module] parent_class]]; try done; try apply IH.
  destruct (find_spec w _ _) as [origin|]; [|apply IH].
  destruct (examine origin parent_class true)
    as [[[_info _dis] _m]| |] eqn:Hcall; simpl; [|done..].
  rewrite (Hkeeps _ _ _ _ _ Hcall).
  destruct _info; apply IH.
Qed.

Lemma examine_class_loop_keeps examine module class_name klasses info disabled r :
  keeps_match examine →
  examine_class_loop w determine_match examine module class_name klasses
    info disabled true = Done r →
  r.2 = true.
Proof.
  intros Hkeeps. revert info disabled.
  induction klasses as [|klass klasses IH]; intros info disabled; simpl.
  { by intros [= <-]. }
  case_bool_decide; [apply IH|].
  intros Hrun.
  apply bind_Done in Hrun as ([[[parents info1] disabled1] match1] & Hsame & Hrun).
  apply same_module_loop_keeps in Hsame; [|done]. simpl in Hsame. subst match1.
  apply bind_Done in Hrun as ([[info2 disabled2] match2] & Hother & Hrun).
  apply other_module_loop_keeps in Hother; [|done]. simpl in Hother. subst match2.
  by eapply IH.
Qed.

Lemma _examine_class_keeps fuel :
  keeps_match (_examine_class w target_module target_class determine_match fuel).
Proof.
  induction fuel as [|fuel IH]; intros p c info disabled m; simpl; [done|].
  unfold examine_class_body.
  destruct (load_module w p target_module target_class) as [|module]; [done|].
  intros Hrun. by apply examine_class_loop_keeps in Hrun.
Qed.

End Match.

(** C9.  Once the match flag is true, no step of a resolution sets it back:
    a call of [_examine_class] that is given a true flag returns a true
    flag, and so do the loop over the same-module parents
    ([_examine_same_module]) and the loop over the parents of other modules,
    whichever way that loop merges a parent's methods. *)
Theorem match_state_never_reverts
    (w : World) (target_module target_class : string)
    (determine_match : PythonModule → ClassDef → DirectiveSet → bool)
    (fuel : nat) :
  let examine :=
    _examine_class w target_module target_class determine_match fuel in
  (∀ p class_name info disabled m,
      examine p class_name true = Done (info, disabled, m) → m = true)
  ∧ (∀ module parents info disabled parents' info' disabled' m,
      _examine_same_module examine parents info disabled true module
      = Done (parents', info', disabled', m) → m = true)
  ∧ (∀ merge module parents info disabled info' disabled' m,
      other_module_loop w examine merge module parents info disabled true
      = Done (info', disabled', m) → m = true).
Proof.
  intros examine.
  assert (keeps_match examine) as Hkeeps by apply _examine_class_keeps.
  split; [exact Hkeeps|split].
  - intros module parents info disabled parents' info' disabled' m Hrun.
    by apply same_module_loop_keeps in Hrun.
  - intros merge module parents info disabled info' disabled' m Hrun.
    by apply other_module_loop_keeps in Hrun.
Qed.

Lemma match_state_never_reverts_witness :
  _examine_class ScenarioC.world "avocado" "Test" _determine_match_avocado 2
    "/tests/test_c.py" "Base" true
  = Done ([("test_a", ∅, [])], ∅, true)
  ∧ true = true.
Proof.
  split; [vm_compute; reflexivity|].
  apply (proj1 (match_state_never_reverts ScenarioC.world "avocado" "Test"
                  _determine_match_avocado 2)
           "/tests/test_c.py" "Base" [("test_a", ∅, [])] ∅ true).
  vm_compute; reflexivity.
Defined.

(** ** A class that is not there *)

Lemma examine_class_loop_missing w determine_match examine module class_name
    klasses info disabled match_ :
  Forall (λ klass, name klass ≠ class_name) klasses →
  examine_class_loop w determine_match examine module class_name klasses
    info disabled match_ = Done (info, disabled, match_).
Proof.
  induction 1 as [|klass klasses Hne _ IH]; simpl; [done|].
  rewrite bool_decide_eq_true_2; [exact IH|]. by intros ->.
Qed.

(** C7.  When the module at [p] loads and holds no class named
    [class_name], [_examine_class] returns an empty method list, an empty
    disabled set and the match flag it was given; it raises nothing and
    makes no further call. *)
Theorem examine_class_not_found
    (w : World) (target_module target_class : string)
    (determine_match : PythonModule → ClassDef → DirectiveSet → bool)
    (fuel : nat) (p class_name : string) (match_ : bool)
    (module : PythonModule) :
  load_module w p target_module target_class = inr module →
  Forall (λ klass, name klass ≠ class_name) (iter_classes module) →
  _examine_class w target_module target_class determine_match (S fuel)
    p class_name match_
  = Done ([], ∅, match_).
Proof.
  intros Hload Hmissing. simpl. unfold examine_class_body. rewrite Hload.
  by apply examine_class_loop_missing.
Qed.

Lemma examine_class_not_found_witness :
  load_module ScenarioC.world "/tests/test_c.py" "avocado" "Test"
    = inr ScenarioC.file
  ∧ Forall (λ klass, name klass ≠ "GenericTestBase")
      (iter_classes ScenarioC.file)
  ∧ _examine_class ScenarioC.world "avocado" "Test" _determine_match_avocado
      1 "/tests/test_c.py" "GenericTestBase" false
    = Done ([], ∅, false).
Proof.
  assert (Forall (λ klass, name klass ≠ "GenericTestBase")
            (iter_classes ScenarioC.file)) as Hmissing
    by (repeat constructor; discriminate).
  split; [reflexivity|split; [exact Hmissing|]].
  exact (examine_class_not_found ScenarioC.world "avocado" "Test"
           _determine_match_avocado 0 "/tests/test_c.py" "GenericTestBase"
           false ScenarioC.file eq_refl Hmissing).
Defined.

(** ** Termination *)

Section Termination.

Context (w : World) (target_module target_class : string).
Context (determine_match : PythonModule → ClassDef → DirectiveSet → bool).
Context (examine : string → string → bool → outcome Examined).

Lemma same_module_loop_kept module todo kept info disabled match_ r :
  same_module_loop examine module todo kept info disabled match_ = Done r →
  ∀ parent, In parent r.1.1.1 → In parent kept ∨ In parent todo.
Proof.
  revert kept info disabled match_.
  induction todo as [|parent todo IH]; intros kept info disabled match_; simpl.
  { intros [= <-]. simpl. auto. }
  assert (∀ x, In x (kept ++ [parent]) ∨ In x todo →
               In x kept ∨ parent = x ∨ In x todo) as Hsplit.
  { intros x [Hx|Hx]; [apply in_app_or in Hx as [Hx|[Hx|[]]]|]; auto. }
  destruct parent as [parent_class| | |];
    try (intros Hrun x Hx; apply Hsplit; by eapply IH).
  intros Hrun.
  apply bind_Done in Hrun as ([[_info _dis] _m] & _ & Hrun).
  destruct _info; intros x Hx.
  - apply Hsplit. by eapply IH.
  - destruct (IH _ _ _ _ Hrun x Hx); auto.
Qed.

Lemma same_module_loop_defined module todo kept info disabled match_ :
  (∀ id, In (Name id) todo → ∀ m, examine (path module) id m ≠ OutOfFuel) →
  same_module_loop examine module todo kept info disabled match_ ≠ OutOfFuel.
Proof.
  revert kept info disabled match_.
  induction todo as [|parent todo IH]; intros kept info disabled match_ Hcalls;
    simpl; [done|].
  assert (∀ id, In (Name id) todo → ∀ m, examine (path module) id m ≠ OutOfFuel)
    as Hrest by (intros id Hid; apply Hcalls; by right).
  destruct parent as [parent_class| | |]; try by apply IH.
  pose proof (Hcalls parent_class (or_introl eq_refl) match_) as Hcall.
  destruct (examine (path module) parent_class match_)
    as [[[_info _dis] _m]| |]; simpl; [|done..].
  destruct _info; by apply IH.
Qed.

Lemma other_module_loop_defined merge module parents info disabled match_ :
  (∀ parent callee, In parent parents →
     In callee (parent_callees w module parent) →
     ∀ m, examine callee.1 callee.2 m ≠ OutOfFuel) →
  other_module_loop w examine merge module parents info disabled match_
    ≠ OutOfFuel.
Proof.
  revert info disabled match_.
  induction parents as [|parent parents IH]; intros info disabled match_ Hcalls;
    simpl; [done|].
  assert (∀ parent callee, In parent parents →
            In callee (parent_callees w module parent) →
            ∀ m, examine callee.1 callee.2 m ≠ OutOfFuel) as Hrest
    by (intros q callee Hq; apply Hcalls; by right).
  pose proof (Hcalls parent) as Hhere. unfold parent_callees in Hhere.
  destruct (_get_attributes_for_further_examination parent module)
    as [[]|[[parent_path parent_module] parent_class]]; try done;
    try by apply IH.
  destruct (find_spec w _ _) as [origin|]; [|by apply IH].
  assert (examine origin parent_class match_ ≠ OutOfFuel) as Hcall.
  { apply (Hhere (origin, parent_class)); [by left|].
    apply in_or_app. right. by left. }
  destruct (examine origin parent_class match_)
    as [[[_info _dis] _m]| |]; simpl; [|done..].
  destruct _info; by apply IH.
Qed.

Lemma examine_class_loop_defined module class_name klasses info disabled match_ :
  (∀ klass parent callee, In klass klasses → name klass = class_name →
     In parent (bases klass) → In callee (parent_callees w module parent) →
     ∀ m, examine callee.1 callee.2 m ≠ OutOfFuel) →
  examine_class_loop w determine_match examine module class_name klasses
    info disabled match_ ≠ OutOfFuel.
Proof.
  revert info disabled match_.
  induction klasses as [|klass klasses IH]; intros info disabled match_ Hcalls;
    simpl; [done|].
  assert (∀ k parent callee, In k klasses → name k = class_name →
            In parent (bases k) → In callee (parent_callees w module parent) →
            ∀ m, examine callee.1 callee.2 m ≠ OutOfFuel) as Hrest
    by (intros k parent callee Hk; apply Hcalls; by right).
  case_bool_decide as Hname; [by apply IH|].
  assert (name klass = class_name) as Hklass
    by (destruct (decide (class_name = name klass)); [done|by destruct Hname]).
  pose proof (Hcalls klass) as Hhere.
  unfold _examine_same_module.
  destruct (same_module_loop examine module (bases klass) [] _ disabled _)
    as [[[[parents info1] disabled1] match1]| |] eqn:Hsame; simpl; [|done|].
  - pose proof (same_module_loop_kept _ _ _ _ _ _ _ Hsame) as Hkept.
    simpl in Hkept.
    destruct (other_module_loop w examine _ module parents info1 disabled1 match1)
      as [[[info2 disabled2] match2]| |] eqn:Hother; simpl; [by apply IH|done|].
    exfalso. revert Hother. apply other_module_loop_defined.
    intros parent callee Hparent Hcallee.
    destruct (Hkept parent Hparent) as [[]|Hbase].
    apply (Hhere parent callee); [by left|done..].
  - exfalso. revert Hsame. apply same_module_loop_defined.
    intros id Hid m.
    apply (Hhere (Name id) (path module, id)); [by left|done..|].
    unfold parent_callees. apply in_or_app. left. by left.
Qed.

Lemma examine_class_body_defined p class_name match_ :
  (∀ callee, refers_to w target_module target_class callee (p, class_name) →
     ∀ m, examine callee.1 callee.2 m ≠ OutOfFuel) →
  examine_class_body w target_module target_class determine_match examine
    p class_name match_ ≠ OutOfFuel.
Proof.
  unfold refers_to, callees, examine_class_body. simpl.
  destruct (load_module w p target_module target_class) as [|module]; [done|].
  intros Hcalls. apply examine_class_loop_defined.
  intros klass parent callee Hklass Hname Hparent Hcallee.
  apply Hcalls. apply in_flat_map. exists klass. split; [done|].
  rewrite bool_decide_eq_true_2 by done.
  apply in_flat_map. by exists parent.
Qed.

End Termination.

Section Acyclic.

Context (w : World) (target_module target_class : string).
Context (determine_match : PythonModule → ClassDef → DirectiveSet → bool).

Abbreviation examine_at fuel :=
  (_examine_class w target_module target_class determine_match fuel).

Abbreviation comes_back :=
  (returns_from w target_module target_class determine_match).

Lemma comes_back_le (fuel fuel' : nat) node :
  (fuel ≤ fuel')%nat → comes_back fuel node → comes_back fuel' node.
Proof. intros Hle Hret fuel'' m Hle'. apply Hret. lia. Qed.

Lemma common_fuel (nodes : list (string * string)) :
  (∀ node, In node nodes → ∃ fuel, comes_back fuel node) →
  ∃ fuel, ∀ node, In node nodes → comes_back fuel node.
Proof.
  induction nodes as [|node nodes IH]; intros Hall.
  { exists 0. intros node []. }
  destruct (Hall node (or_introl eq_refl)) as [fuel1 Hfuel1].
  destruct IH as [fuel2 Hfuel2]; [intros n Hn; apply Hall; by right|].
  exists (fuel1 `max` fuel2). intros n [<-|Hn].
  - eapply comes_back_le; [|exact Hfuel1]. lia.
  - eapply comes_back_le; [|by apply Hfuel2]. lia.
Qed.

Lemma acyclic_returns node :
  Acc (refers_to w target_module target_class) node →
  ∃ fuel, comes_back fuel node.
Proof.
  induction 1 as [[p class_name] _ IH].
  destruct (common_fuel (callees w target_module target_class (p, class_name)))
    as [fuel Hfuel]; [exact IH|].
  exists (S fuel). intros [|fuel'] m Hle; [lia|]. simpl.
  apply examine_class_body_defined. intros callee Hcallee m'.
  apply (Hfuel callee Hcallee). lia.
Qed.

End Acyclic.

(** A class whose first base is its own name, standing first in its file,
    sends [_examine_class] into itself without end. *)
Lemma self_reference_no_return
    (w : World) (target_module target_class : string)
    (determine_match : PythonModule → ClassDef → DirectiveSet → bool)
    (p : string) (module : PythonModule) (klass : ClassDef)
    (klasses : list ClassDef) (parents : list expr) :
  load_module w p target_module target_class = inr module →
  path module = p →
  iter_classes module = klass :: klasses →
  bases klass = Name (name klass) :: parents →
  ∀ fuel m,
    _examine_class w target_module target_class determine_match fuel
      p (name klass) m = OutOfFuel.
Proof.
  intros Hload Hpath Hklasses Hbases.
  induction fuel as [|fuel IH]; intros m; [done|].
  simpl. unfold examine_class_body. rewrite Hload, Hklasses. simpl.
  rewrite bool_decide_eq_false_2 by (by intros []).
  unfold _examine_same_module. rewrite Hbases. simpl.
  by rewrite Hpath, IH.
Qed.

(** C8, as the code has it.  [_examine_class] has no guard against cycles;
    it comes back when the references it follows are well founded: if no
    chain of base references (by name within the file, through the import
    table across files) starting at the class goes on for ever, some fuel
    is enough, and so is any larger one. *)
Theorem examine_class_returns_when_acyclic
    (w : World) (target_module target_class : string)
    (determine_match : PythonModule → ClassDef → DirectiveSet → bool)
    (p class_name : string) :
  Acc (refers_to w target_module target_class) (p, class_name) →
  ∃ fuel, ∀ fuel' m, (fuel ≤ fuel')%nat →
    _examine_class w target_module target_class determine_match fuel'
      p class_name m ≠ OutOfFuel.
Proof. intros Hacc. exact (acyclic_returns w _ _ determine_match _ Hacc). Qed.

Ltac callees_of_node :=
  constructor; intros [? ?] Hin; vm_compute in Hin;
  repeat (destruct Hin as [Hin|Hin]; [injection Hin as <- <-|]);
  try contradiction.

Lemma examine_class_returns_when_acyclic_witness :
  Acc (refers_to ScenarioC.world "avocado" "Test") ("/tests/test_c.py", "Child")
  ∧ ∃ fuel, ∀ fuel' m, (fuel ≤ fuel')%nat →
      _examine_class ScenarioC.world "avocado" "Test" _determine_match_avocado
        fuel' "/tests/test_c.py" "Child" m ≠ OutOfFuel.
Proof.
  assert (Acc (refers_to ScenarioC.world "avocado" "Test")
            ("/tests/test_c.py", "Child")) as Hacc.
  { callees_of_node. callees_of_node; callees_of_node. }
  split; [exact Hacc|].
  exact (examine_class_returns_when_acyclic ScenarioC.world "avocado" "Test"
           _determine_match_avocado "/tests/test_c.py" "Child" Hacc).
Defined.

(** C8, as stated, fails: on a file whose class `Test` lists the imported
    name `Test` as its base, no amount of fuel lets [_examine_class] come
    back. *)
Lemma examine_class_self_reference_diverges :
  ¬ terminates SelfReference.world "avocado" "Test" _determine_match_avocado
      "/tests/test_self.py" "Test" false.
Proof.
  intros [fuel Hret]. apply Hret.
  exact (self_reference_no_return SelfReference.world "avocado" "Test"
           _determine_match_avocado "/tests/test_self.py" SelfReference.file
           SelfReference.Test [] [] eq_refl eq_refl eq_refl eq_refl fuel false).
Qed.

(** ** Where a method entry comes from *)

Lemma get_methods_info_declared klass e :
  In e (own_methods klass) → declared_by klass e.
Proof.
  unfold own_methods, get_methods_info.
  set (step := methods_info_step _ _).
  assert (∀ statements acc,
            (∀ st, In st statements → In st (body klass)) →
            In e (fold_left step statements acc) →
            In e acc ∨ declared_by klass e) as Hfold.
  { induction statements as [|st statements IH]; intros acc Hsub; simpl; [auto|].
    intros He. apply IH in He; [|intros s Hs; apply Hsub; by right].
    destruct He as [He|He]; [|by right].
    destruct st as [st_name st_doc|]; [|by left].
    unfold step, methods_info_step in He.
    destruct (String.prefix "test" st_name) eqn:Hprefix; [|by left].
    case_bool_decide; [by left|].
    apply in_app_or in He as [He|[<-|[]]]; [by left|].
    right. exists st_name, st_doc. split; [apply Hsub; by left|done]. }
  intros He. by destruct (Hfold (body klass) [] (λ _ H, H) He) as [[]|].
Qed.

Lemma methods_info_step_names class_tags class_requirements methods_info st n :
  In n (map method_name methods_info) →
  In n (map method_name
          (methods_info_step class_tags class_requirements methods_info st)).
Proof.
  intros Hn. destruct st as [st_name st_doc|]; simpl; [|done].
  destruct (String.prefix "test" st_name); [|done].
  case_bool_decide; [done|].
  rewrite map_app. apply in_or_app. by left.
Qed.

Lemma get_methods_info_complete klass st_name st_doc :
  In (FunctionDef st_name st_doc) (body klass) →
  String.prefix "test" st_name = true →
  In st_name (map method_name (own_methods klass)).
Proof.
  intros Hst Hprefix. unfold own_methods, get_methods_info.
  set (step := methods_info_step _ _).
  assert (∀ statements acc,
            In st_name (map method_name acc)
            ∨ In (FunctionDef st_name st_doc) statements →
            In st_name (map method_name (fold_left step statements acc)))
    as Hfold.
  { induction statements as [|st statements IH]; intros acc; simpl.
    { by intros [|[]]. }
    intros [Hacc|[->|Hlater]]; apply IH; [left|left|by right].
    - by apply methods_info_step_names.
    - unfold step. simpl. rewrite Hprefix.
      case_bool_decide as Hseen; [by apply list_elem_of_In|].
      rewrite map_app. apply in_or_app. right. by left. }
  apply Hfold. by right.
Qed.

Lemma get_methods_info_NoDup klass :
  NoDup (map method_name (own_methods klass)).
Proof.
  unfold own_methods, get_methods_info.
  set (step := methods_info_step _ _).
  assert (∀ statements acc,
            NoDup (map method_name acc) →
            NoDup (map method_name (fold_left step statements acc))) as Hfold.
  { induction statements as [|st statements IH]; intros acc Hacc; simpl; [done|].
    apply IH. destruct st as [st_name st_doc|]; simpl; [|done].
    destruct (String.prefix "test" st_name); [|done].
    case_bool_decide as Hseen; [done|].
    rewrite map_app. simpl. apply NoDup_app. split; [done|].
    split; [|apply NoDup_singleton].
    intros n Hn ->%list_elem_of_singleton. by apply Hseen. }
  apply Hfold. constructor.
Qed.

Lemma odict_set_In key value (d : ResultMap) k v :
  In (k, v) (odict_set key value d) → (k = key ∧ v = value) ∨ In (k, v) d.
Proof.
  induction d as [|[k' v'] d IH]; simpl.
  { intros [[= <- <-]|[]]. by left. }
  case_bool_decide; simpl.
  - intros [[= <- <-]|Hin]; [left|right]; auto.
  - intros [Heq|Hin]; [by right; left|].
    destruct (IH Hin); auto.
Qed.

Lemma _extend_test_list_In current new e :
  In e (_extend_test_list current new) → In e current ∨ In e new.
Proof.
  unfold _extend_test_list. revert current.
  induction new as [|test new IH]; intros current; simpl; [auto|].
  intros He. apply IH in He as [He|He]; [|auto].
  case_bool_decide; [auto|].
  apply in_app_or in He as [He|[<-|[]]]; auto.
Qed.

Lemma _extend_test_list_all P : merges (all_entries P) _extend_test_list.
Proof.
  intros info _info Hinfo Hnew e He.
  apply _extend_test_list_In in He as [He|He]; auto.
Qed.

Lemma extend_all P : merges (all_entries P) (λ info _info, info ++ _info).
Proof.
  intros info _info Hinfo Hnew e He. apply in_app_or in He as [He|He]; auto.
Qed.

(** `_extend_test_list` never adds a name that is already there. *)
Lemma _extend_test_list_unique : merges unique_names _extend_test_list.
Proof.
  intros info _info Hinfo _. unfold unique_names, _extend_test_list in *.
  revert info Hinfo.
  induction _info as [|test _info IH]; intros info Hinfo; simpl; [done|].
  apply IH. case_bool_decide as Hseen; [done|].
  rewrite map_app. simpl. apply NoDup_app. split; [done|].
  split; [|apply NoDup_singleton].
  intros n Hn ->%list_elem_of_singleton. by apply Hseen.
Qed.

Section Entries.

Context (w : World) (target_module target_class : string).
Context (determine_match : PythonModule → ClassDef → DirectiveSet → bool).
Context (Q : list MethodInfo → Prop).
Context (Hextend : merges Q _extend_test_list).
Context (examine : string → string → bool → outcome Examined).
Context (Hyields : yields Q examine).

Lemma same_module_loop_entries module todo kept info disabled match_ r :
  Q info →
  same_module_loop examine module todo kept info disabled match_ = Done r →
  Q r.1.1.2.
Proof.
  revert kept info disabled match_.
  induction todo as [|parent todo IH]; intros kept info disabled match_ Hinfo;
    simpl.
  { by intros [= <-]. }
  destruct parent as [parent_class| | |]; try by apply IH.
  intros Hrun.
  apply bind_Done in Hrun as ([[_info _dis] _m] & Hcall & Hrun).
  pose proof (Hyields _ _ _ _ Hcall) as Hnew. simpl in Hnew, Hrun.
  destruct _info as [|test _info]; [exact (IH _ _ _ _ Hinfo Hrun)|].
  refine (IH _ _ _ _ _ Hrun). by apply Hextend.
Qed.

Lemma other_module_loop_entries merge module parents info disabled match_ r :
  merges Q merge →
  Q info →
  other_module_loop w examine merge module parents info disabled match_
    = Done r →
  Q r.1.1.
Proof.
  intros Hmerge. revert info disabled match_.
  induction parents as [|parent parents IH]; intros info disabled match_ Hinfo;
    simpl.
  { by intros [= <-]. }
  destruct (_get_attributes_for_further_examination parent module)
    as [[]|[[parent_path parent_module] parent_class]]; try done;
    try by apply IH.
  destruct (find_spec w _ _) as [origin|]; [|by apply IH].
  intros Hrun.
  apply bind_Done in Hrun as ([[_info _dis] _m] & Hcall & Hrun).
  pose proof (Hyields _ _ _ _ Hcall) as Hnew. simpl in Hnew, Hrun.
  destruct _info as [|test _info]; [exact (IH _ _ _ Hinfo Hrun)|].
  refine (IH _ _ _ _ Hrun). by apply Hmerge.
Qed.

Lemma examine_class_loop_entries module class_name klasses info disabled
    match_ r :
  (∀ klass, In klass klasses → Q (own_methods klass)) →
  Q info →
  examine_class_loop w determine_match examine module class_name klasses
    info disabled match_ = Done r →
  Q r.1.1.
Proof.
  revert info disabled match_.
  induction klasses as [|klass klasses IH]; intros info disabled match_ Hown
    Hinfo; simpl.
  { by intros [= <-]. }
  assert (∀ k, In k klasses → Q (own_methods k)) as Hrest
    by (intros k Hk; apply Hown; by right).
  case_bool_decide; [by apply IH|].
  intros Hrun.
  apply bind_Done in Hrun as ([[[parents info1] disabled1] match1] & Hsame & Hrun).
  apply bind_Done in Hrun as ([[info2 disabled2] match2] & Hother & Hrun).
  simpl in Hrun. refine (IH _ _ _ Hrest _ Hrun).
  refine (other_module_loop_entries _ _ _ _ _ _ _ Hextend _ Hother).
  refine (same_module_loop_entries _ _ _ _ _ _ _ _ Hsame).
  apply Hown. by left.
Qed.

Lemma find_python_tests_loop_entries module klasses result disabled out :
  merges Q (λ info _info, info ++ _info) →
  (∀ klass, In klass klasses → Q (own_methods klass)) →
  (∀ class_name info, In (class_name, info) result → Q info) →
  find_python_tests_loop w examine module klasses result disabled = Done out →
  ∀ class_name info, In (class_name, info) out.1 → Q info.
Proof.
  intros Happ. revert result disabled.
  induction klasses as [|klass klasses IH]; intros result disabled Hown Hresult;
    simpl.
  { by intros [= <-]. }
  assert (∀ k, In k klasses → Q (own_methods k)) as Hrest
    by (intros k Hk; apply Hown; by right).
  assert (∀ info, Q info →
            ∀ class_name info',
              In (class_name, info') (odict_set (name klass) info result) →
              Q info') as Hset.
  { intros info Hinfo class_name info' Hin.
    apply odict_set_In in Hin as [[_ ->]|Hin]; [done|by eapply Hresult]. }
  destruct (check_docstring_directive _ "disable"); [by apply IH|].
  destruct (check_docstring_directive _ "enable").
  { apply IH; [done|]. apply Hset. apply Hown. by left. }
  intros Hrun.
  apply bind_Done in Hrun as ([[[parents info1] disabled1] match1] & Hsame & Hrun).
  apply bind_Done in Hrun as ([[info2 disabled2] match2] & Hother & Hrun).
  simpl in Hrun.
  destruct match2; [|exact (IH _ _ Hrest Hresult Hrun)].
  refine (IH _ _ Hrest _ Hrun). apply Hset.
  refine (other_module_loop_entries _ _ _ _ _ _ _ Happ _ Hother).
  refine (same_module_loop_entries _ _ _ _ _ _ _ _ Hsame).
  apply Hown. by left.
Qed.

End Entries.

Section Provenance.

Context (w : World) (target_module target_class : string).
Context (determine_match : PythonModule → ClassDef → DirectiveSet → bool).

Lemma _examine_class_declared fuel :
  yields (all_entries (declared_in w target_module target_class))
    (_examine_class w target_module target_class determine_match fuel).
Proof.
  induction fuel as [|fuel IH]; intros p c m r; simpl; [done|].
  unfold examine_class_body.
  destruct (load_module w p target_module target_class) as [|module] eqn:Hload;
    [done|].
  apply (examine_class_loop_entries w determine_match _
           (_extend_test_list_all _) _ IH).
  - intros klass Hklass e He. exists p, module, klass.
    auto using get_methods_info_declared.
  - intros e [].
Qed.

(** The resolver never returns two entries of one name. *)
Lemma _examine_class_unique fuel :
  yields unique_names
    (_examine_class w target_module target_class determine_match fuel).
Proof.
  induction fuel as [|fuel IH]; intros p c m r; simpl; [done|].
  unfold examine_class_body.
  destruct (load_module w p target_module target_class) as [|module]; [done|].
  apply (examine_class_loop_entries w determine_match _
           _extend_test_list_unique _ IH).
  - intros klass _. apply get_methods_info_NoDup.
  - constructor.
Qed.

Lemma find_python_tests_declared fuel p result disabled class_name info e :
  find_python_tests w target_module target_class determine_match fuel p
    = Done (result, disabled) →
  In (class_name, info) result → In e info →
  declared_in w target_module target_class e.
Proof.
  unfold find_python_tests.
  destruct (load_module w p target_module target_class) as [|module] eqn:Hload;
    [done|].
  intros Hrun Hclass He.
  refine (find_python_tests_loop_entries w _ (_extend_test_list_all _) _
            (_examine_class_declared fuel) _ _ _ _ _ (extend_all _) _ _
            Hrun class_name info Hclass e He).
  - intros klass Hklass e' He'. exists p, module, klass.
    auto using get_methods_info_declared.
  - intros ? ? [].
Qed.

End Provenance.

(** C3, as the code has it.  Every method entry of a discovery result was
    built from a test method of one class of one loaded file, and its tag
    set is the union of that method's docstring tags and that class's
    docstring tags: a superset of the method's own tags and of the
    class-level tags of the class that declares it.  (Class-level tags of
    the other classes of the inheritance chain are not added.) *)
Theorem method_tags_cover_method_and_declaring_class
    (w : World) (target_module target_class : string)
    (determine_match : PythonModule → ClassDef → DirectiveSet → bool)
    (fuel : nat) (p : string) (result : ResultMap) (disabled : gset string)
    (class_name : string) (info : list MethodInfo) (e : MethodInfo) :
  find_python_tests w target_module target_class determine_match fuel p
    = Done (result, disabled) →
  In (class_name, info) result →
  In e info →
  ∃ q module klass st_name st_doc,
    load_module w q target_module target_class = inr module
    ∧ In klass (iter_classes module)
    ∧ In (FunctionDef st_name st_doc) (body klass)
    ∧ method_name e = st_name
    ∧ method_tags e
      = get_docstring_directives_tags st_doc
          ∪ get_docstring_directives_tags (get_docstring klass)
    ∧ get_docstring_directives_tags st_doc ⊆ method_tags e
    ∧ get_docstring_directives_tags (get_docstring klass) ⊆ method_tags e.
Proof.
  intros Hrun Hclass He.
  destruct (find_python_tests_declared _ _ _ _ _ _ _ _ _ _ _ Hrun Hclass He)
    as (q & module & klass & Hload & Hklass & st_name & st_doc & Hst & _ & ->).
  exists q, module, klass, st_name, st_doc.
  unfold method_name, method_tags. simpl.
  repeat split; [done..| |]; set_solver.
Qed.

Lemma method_tags_cover_method_and_declaring_class_witness :
  find_python_tests AncestorTags.world "avocado" "Test"
    _determine_match_avocado 2 "/tests/test_tags.py"
    = Done (AncestorTags.found, ∅)
  ∧ In ("Child", [entry "test_b" []; entry "test_a" ["slow"]])
      AncestorTags.found
  ∧ In (entry "test_a" ["slow"]) [entry "test_b" []; entry "test_a" ["slow"]]
  ∧ ∃ q module klass st_name st_doc,
      load_module AncestorTags.world q "avocado" "Test" = inr module
      ∧ In klass (iter_classes module)
      ∧ In (FunctionDef st_name st_doc) (body klass)
      ∧ method_name (entry "test_a" ["slow"]) = st_name
      ∧ method_tags (entry "test_a" ["slow"])
        = get_docstring_directives_tags st_doc
            ∪ get_docstring_directives_tags (get_docstring klass)
      ∧ get_docstring_directives_tags st_doc
          ⊆ method_tags (entry "test_a" ["slow"])
      ∧ get_docstring_directives_tags (get_docstring klass)
          ⊆ method_tags (entry "test_a" ["slow"]).
Proof.
  assert (find_python_tests AncestorTags.world "avocado" "Test"
            _determine_match_avocado 2 "/tests/test_tags.py"
          = Done (AncestorTags.found, ∅)) as Hrun by (vm_compute; reflexivity).
  assert (In ("Child", [entry "test_b" []; entry "test_a" ["slow"]])
            AncestorTags.found)
    as Hclass by (right; left; reflexivity).
  assert (In (entry "test_a" ["slow"])
            [entry "test_b" []; entry "test_a" ["slow"]])
    as He by (right; left; reflexivity).
  split; [exact Hrun|split; [exact Hclass|split; [exact He|]]].
  exact (method_tags_cover_method_and_declaring_class AncestorTags.world
           "avocado" "Test" _determine_match_avocado 2 "/tests/test_tags.py"
           AncestorTags.found ∅ "Child" _ _ Hrun Hclass He).
Defined.

(** C3, as stated, fails: `Child` inherits from `Base`, whose docstring
    carries the class-level tag `slow`; `Base` is resolved (its `test_a` is
    listed under `Child`), and the entry of `Child`'s own method `test_b`
    does not carry that tag. *)
Lemma ancestor_class_tags_not_added :
  find_avocado_tests AncestorTags.world 2 "/tests/test_tags.py"
  = Done ([("Base", [entry "test_a" ["slow"]]);
           ("Child", [entry "test_b" []; entry "test_a" ["slow"]])], ∅)
  ∧ In (Name (name AncestorTags.Base)) (bases AncestorTags.Child)
  ∧ ¬ (get_docstring_directives_tags (get_docstring AncestorTags.Base)
         ⊆ method_tags (entry "test_b" [])).
Proof.
  split; [vm_compute; reflexivity|split; [by left|]].
  intros Hsub. specialize (Hsub "slow").
  unfold method_tags, entry, get_docstring_directives_tags in Hsub.
  simpl in Hsub. set_solver.
Qed.

(** ** The ordered result mapping *)

Lemma odict_get_set_eq key value (d : ResultMap) :
  odict_get key (odict_set key value d) = Some value.
Proof.
  induction d as [|[k v] d IH]; simpl.
  - by rewrite bool_decide_eq_true_2.
  - case_bool_decide as Hk; simpl.
    + by rewrite bool_decide_eq_true_2.
    + by rewrite bool_decide_eq_false_2.
Qed.

Lemma odict_get_set_ne key key' value (d : ResultMap) :
  key ≠ key' → odict_get key' (odict_set key value d) = odict_get key' d.
Proof.
  intros Hne. induction d as [|[k v] d IH]; simpl.
  - by rewrite bool_decide_eq_false_2.
  - case_bool_decide as Hk; simpl.
    + subst k. by rewrite !bool_decide_eq_false_2.
    + by rewrite IH.
Qed.

Lemma odict_keys_set key value (d : ResultMap) k :
  In k (odict_keys (odict_set key value d)) → k = key ∨ In k (odict_keys d).
Proof.
  unfold odict_keys. induction d as [|[k' v'] d IH]; simpl.
  { intros [<-|[]]. by left. }
  case_bool_decide; simpl; [tauto|].
  intros [Hk|Hk]; [tauto|]. destruct (IH Hk); tauto.
Qed.

(** ** One class at a time *)

Section Driver.

Context (w : World).
Context (examine : string → string → bool → outcome Examined).

Lemma same_module_loop_disabled module todo kept info disabled match_ r :
  same_module_loop examine module todo kept info disabled match_ = Done r →
  disabled ⊆ r.1.2.
Proof.
  revert kept info disabled match_.
  induction todo as [|parent todo IH]; intros kept info disabled match_; simpl.
  { by intros [= <-]. }
  destruct parent as [parent_class| | |]; try by apply IH.
  intros Hrun.
  apply bind_Done in Hrun as ([[_info _dis] _m] & _ & Hrun). simpl in Hrun.
  destruct _info; apply IH in Hrun; set_solver.
Qed.

Lemma other_module_loop_disabled merge module parents info disabled match_ r :
  other_module_loop w examine merge module parents info disabled match_
    = Done r →
  disabled ⊆ r.1.2.
Proof.
  revert info disabled match_.
  induction parents as [|parent parents IH]; intros info disabled match_; simpl.
  { by intros [= <-]. }
  destruct (_get_attributes_for_further_examination parent module)
    as [[]|[[parent_path parent_module] parent_class]]; try done;
    try by apply IH.
  destruct (find_spec w _ _) as [origin|]; [|by apply IH].
  intros Hrun.
  apply bind_Done in Hrun as ([[_info _dis] _m] & _ & Hrun). simpl in Hrun.
  destruct _info; apply IH in Hrun; set_solver.
Qed.

Lemma find_python_tests_loop_cons module klass klasses result disabled out :
  find_python_tests_loop w examine module (klass :: klasses) result disabled
    = Done out →
  ∃ result' disabled',
    class_step klass result disabled result' disabled'
    ∧ find_python_tests_loop w examine module klasses result' disabled'
      = Done out.
Proof.
  simpl.
  destruct (check_docstring_directive _ "disable") eqn:Hdisable.
  { intros Hrun. eexists _, _. split; [by apply step_disable|done]. }
  destruct (check_docstring_directive _ "enable") eqn:Henable.
  { intros Hrun. eexists _, _. split; [by apply step_enable|done]. }
  intros Hrun.
  apply bind_Done in Hrun as ([[[parents info1] disabled1] match1] & Hsame & Hrun).
  apply bind_Done in Hrun as ([[info2 disabled2] match2] & Hother & Hrun).
  apply same_module_loop_disabled in Hsame.
  apply other_module_loop_disabled in Hother.
  simpl in *.
  assert (disabled ⊆ disabled2) by set_solver.
  destruct match2; eexists _, _; (split; [|exact Hrun]).
  - by apply step_matched.
  - by apply step_unmatched.
Qed.

Lemma find_python_tests_loop_app module before after result disabled :
  find_python_tests_loop w examine module (before ++ after) result disabled
  = find_python_tests_loop w examine module before result disabled
      ≫= λ out, find_python_tests_loop w examine module after out.1 out.2.
Proof.
  revert result disabled.
  induction before as [|klass before IH]; intros result disabled; simpl; [done|].
  destruct (check_docstring_directive _ "disable"); [apply IH|].
  destruct (check_docstring_directive _ "enable"); [apply IH|].
  destruct (_examine_same_module _ _ _ _ _ _)
    as [[[[parents info1] disabled1] match1]| |]; simpl; [|done..].
  destruct (other_module_loop _ _ _ _ _ _ _ _)
    as [[[info2 disabled2] match2]| |]; simpl; [|done..].
  destruct match2; apply IH.
Qed.

Lemma find_python_tests_loop_disabled module klasses result disabled out :
  find_python_tests_loop w examine module klasses result disabled = Done out →
  disabled ⊆ out.2
  ∧ ∀ klass, In klass klasses →
      check_docstring_directive (get_docstring klass) "disable" = true →
      name klass ∈ out.2.
Proof.
  revert result disabled.
  induction klasses as [|klass klasses IH]; intros result disabled Hrun.
  { injection Hrun as <-. split; [done|intros ? []]. }
  apply find_python_tests_loop_cons in Hrun
    as (result' & disabled' & Hstep & Hrun).
  destruct (IH _ _ Hrun) as [Hgrow Hnames]. clear IH Hrun.
  assert (disabled ⊆ disabled') as Hstep_grow.
  { destruct Hstep; [apply union_subseteq_l|done..]. }
  split; [by transitivity disabled'|].
  intros k [<-|Hk] Hdisable; [|by apply Hnames].
  destruct Hstep; try congruence.
  apply Hgrow, elem_of_union_r. by apply elem_of_singleton.
Qed.

Lemma find_python_tests_loop_keys module klasses result disabled out key :
  find_python_tests_loop w examine module klasses result disabled = Done out →
  In key (odict_keys out.1) →
  In key (odict_keys result)
  ∨ ∃ klass, In klass klasses ∧ name klass = key
      ∧ check_docstring_directive (get_docstring klass) "disable" = false.
Proof.
  revert result disabled.
  induction klasses as [|klass klasses IH]; intros result disabled Hrun Hkey.
  { injection Hrun as <-. by left. }
  apply find_python_tests_loop_cons in Hrun
    as (result' & disabled' & Hstep & Hrun).
  destruct (IH _ _ Hrun Hkey) as [Hin|(k & Hk & Hname & Hdis)].
  - destruct Hstep as [| |info ?|]; auto;
      (apply odict_keys_set in Hin as [->|Hin]; [right|by left]);
      exists klass; (split; [by left|done]).
  - right. exists k. split; [by right|done].
Qed.

Lemma find_python_tests_loop_other_key module klasses result disabled out key :
  find_python_tests_loop w examine module klasses result disabled = Done out →
  Forall (λ klass, name klass ≠ key) klasses →
  odict_get key out.1 = odict_get key result.
Proof.
  revert result disabled.
  induction klasses as [|klass klasses IH]; intros result disabled Hrun Hother.
  { by injection Hrun as <-. }
  apply find_python_tests_loop_cons in Hrun
    as (result' & disabled' & Hstep & Hrun).
  inversion_clear Hother as [|? ? Hne Hrest].
  rewrite (IH _ _ Hrun Hrest).
  destruct Hstep; auto using odict_get_set_ne.
Qed.

End Driver.

(** ** Discovery on the concrete file sets *)

Lemma find_avocado_tests_more_fuel w (fuel fuel' : nat) p out :
  find_avocado_tests w fuel p = Done out →
  (fuel ≤ fuel')%nat →
  find_avocado_tests w fuel' p = Done out.
Proof.
  unfold find_avocado_tests. intros Hrun Hle.
  rewrite <- Hrun. apply find_python_tests_le; [done|]. by rewrite Hrun.
Qed.

Lemma scenario_c_found (fuel : nat) :
  (2 ≤ fuel)%nat →
  find_avocado_tests ScenarioC.world fuel "/tests/test_c.py"
  = Done ([("Base", [entry "test_a" []]);
           ("Child", [entry "test_b" []; entry "test_a" []])], ∅).
Proof.
  apply find_avocado_tests_more_fuel. vm_compute; reflexivity.
Qed.

(** C1.  The code lists the method twice.  `Child` (in one file) and its
    ancestor `Base` (in another) both declare `test_x`: the method list that
    `find_python_tests` records for `Child` holds two entries named
    `test_x`, the subclass's own and the ancestor's, because the driver
    merges a cross-file parent with `info.extend`.  The resolver's own
    merge, `_extend_test_list`, keeps the first entry only. *)
Theorem cross_file_override_is_listed_twice (fuel : nat) :
  find_avocado_tests CrossFileOverride.world (2 + fuel) "/tests/test_child.py"
  = Done ([("Child", [entry "test_x" ["child"]; entry "test_x" ["base"]])], ∅)
  ∧ _extend_test_list [entry "test_x" ["child"]] [entry "test_x" ["base"]]
    = [entry "test_x" ["child"]].
Proof.
  split; [|vm_compute; reflexivity].
  apply (find_avocado_tests_more_fuel _ 2); [vm_compute; reflexivity|lia].
Qed.

(** C2, as the code has it.  On scenario C discovery returns
    `Base -> [test_a]` and `Child -> [test_b, test_a]`: the subclass's own
    method comes first, the inherited one is appended. *)
Theorem scenario_c_own_method_first (fuel : nat) :
  (2 ≤ fuel)%nat →
  ∃ result disabled,
    find_avocado_tests ScenarioC.world fuel "/tests/test_c.py"
      = Done (result, disabled)
    ∧ odict_get "Base" result = Some [entry "test_a" []]
    ∧ odict_get "Child" result = Some [entry "test_b" []; entry "test_a" []].
Proof.
  intros Hfuel. eexists _, _. split; [by apply scenario_c_found|done].
Qed.

Lemma scenario_c_own_method_first_witness :
  (2 ≤ 2)%nat
  ∧ ∃ result disabled,
      find_avocado_tests ScenarioC.world 2 "/tests/test_c.py"
        = Done (result, disabled)
      ∧ odict_get "Base" result = Some [entry "test_a" []]
      ∧ odict_get "Child" result
        = Some [entry "test_b" []; entry "test_a" []].
Proof.
  split; [lia|]. apply (scenario_c_own_method_first 2). lia.
Defined.

(** C2, as stated, fails: whatever the fuel, discovery on scenario C does
    not list `test_a` before `test_b` under `Child`. *)
Lemma scenario_c_not_ancestor_first :
  ¬ ∃ fuel result disabled,
      find_avocado_tests ScenarioC.world fuel "/tests/test_c.py"
        = Done (result, disabled)
      ∧ map method_name <$> odict_get "Child" result
        = Some ["test_a"; "test_b"].
Proof.
  intros (fuel & result & disabled & Hrun & Hchild).
  destruct fuel as [|[|fuel]]; [by vm_compute in Hrun..|].
  rewrite scenario_c_found in Hrun by lia.
  injection Hrun as <- <-. by vm_compute in Hchild.
Qed.

(** C6, as the code has it.  A file whose only class has the single base
    `alias.attr`, with no entry for `alias` in the import table, is
    processed without an exception and without any call of the resolver
    (any fuel will do).  The class is listed as disabled if it says so;
    otherwise it is recorded, with exactly its own methods, when it carries
    `enable` or `recursive` or is a structural match, and is left out of the
    result when none of these holds. *)
Theorem unresolved_alias_is_skipped
    (w : World) (target_module target_class : string)
    (determine_match : PythonModule → ClassDef → DirectiveSet → bool)
    (fuel : nat) (p : string) (module : PythonModule) (klass : ClassDef)
    (alias attr : string) :
  load_module w p target_module target_class = inr module →
  iter_classes module = [klass] →
  bases klass = [Attribute (Name alias) attr] →
  imported_objects module !! alias = None →
  find_python_tests w target_module target_class determine_match fuel p
  = Done
      (if check_docstring_directive (get_docstring klass) "disable"
       then ([], {[name klass]})
       else if check_docstring_directive (get_docstring klass) "enable"
               || check_docstring_directive (get_docstring klass) "recursive"
               || is_matching_klass module klass
       then ([(name klass, own_methods klass)], ∅)
       else ([], ∅)).
Proof.
  intros Hload Hklasses Hbases Halias.
  unfold find_python_tests. rewrite Hload, Hklasses. simpl.
  destruct (check_docstring_directive _ "disable").
  { by rewrite (left_id_L ∅ (∪)). }
  destruct (check_docstring_directive _ "enable"); [done|].
  unfold _examine_same_module. rewrite Hbases. simpl. rewrite Halias. simpl.
  destruct (check_docstring_directive _ "recursive"); [done|].
  by destruct (is_matching_klass module klass).
Qed.

Lemma unresolved_alias_is_skipped_witness :
  load_module ScenarioD.world "/tests/test_d.py" "avocado" "Test"
    = inr ScenarioD.file
  ∧ iter_classes ScenarioD.file = [ScenarioD.Child]
  ∧ bases ScenarioD.Child = [Attribute (Name "unresolved") "Foreign"]
  ∧ imported_objects ScenarioD.file !! "unresolved" = None
  ∧ find_python_tests ScenarioD.world "avocado" "Test"
      _determine_match_avocado 0 "/tests/test_d.py"
    = Done ([], ∅).
Proof.
  repeat (split; [reflexivity|]).
  exact (unresolved_alias_is_skipped ScenarioD.world "avocado" "Test"
           _determine_match_avocado 0 "/tests/test_d.py" ScenarioD.file
           ScenarioD.Child "unresolved" "Foreign"
           eq_refl eq_refl eq_refl eq_refl).
Defined.

(** C6, as stated, fails: on scenario D discovery completes, and `Child` is
    not a key of the result mapping. *)
Lemma scenario_d_child_not_reported :
  ¬ ∃ fuel result disabled,
      find_avocado_tests ScenarioD.world fuel "/tests/test_d.py"
        = Done (result, disabled)
      ∧ In "Child" (odict_keys result).
Proof.
  intros (fuel & result & disabled & Hrun & Hchild).
  vm_compute in Hrun. injection Hrun as <- _. exact Hchild.
Qed.

(** ** Directives *)

Section Directives.

Context (w : World) (target_module target_class : string).
Context (determine_match : PythonModule → ClassDef → DirectiveSet → bool).

Lemma disabled_class_outcome fuel p module klass result disabled :
  load_module w p target_module target_class = inr module →
  In klass (iter_classes module) →
  check_docstring_directive (get_docstring klass) "disable" = true →
  find_python_tests w target_module target_class determine_match fuel p
    = Done (result, disabled) →
  name klass ∈ disabled
  ∧ (In (name klass) (odict_keys result) →
     ∃ other, In other (iter_classes module) ∧ name other = name klass
       ∧ check_docstring_directive (get_docstring other) "disable" = false).
Proof.
  intros Hload Hklass Hdisable. unfold find_python_tests. rewrite Hload.
  intros Hrun. split.
  - by apply (find_python_tests_loop_disabled _ _ _ _ _ _ _ Hrun).
  - intros Hkey.
    by destruct (find_python_tests_loop_keys _ _ _ _ _ _ _ _ Hrun Hkey)
      as [[]|?].
Qed.

Lemma disabled_class_step examine module klass klasses result disabled :
  check_docstring_directive (get_docstring klass) "disable" = true →
  find_python_tests_loop w examine module (klass :: klasses) result disabled
  = find_python_tests_loop w examine module klasses result
      (disabled ∪ {[name klass]}).
Proof. intros Hdisable. simpl. by rewrite Hdisable. Qed.

End Directives.

(** C4, as the code has it.  A top-level class whose docstring carries
    `enable` and no `disable` is recorded with exactly its own methods -
    one entry for each name of a locally declared test-prefixed method,
    tagged with the method's and the class's docstring tags - without any
    call of the resolver; that record is what the result holds under the
    class's name provided no later class of the file has the same name. *)
Theorem enabled_class_records_own_methods
    (w : World) (target_module target_class : string)
    (determine_match : PythonModule → ClassDef → DirectiveSet → bool)
    (fuel : nat) (p : string) (module : PythonModule)
    (before after : list ClassDef) (klass : ClassDef)
    (result : ResultMap) (disabled : gset string) :
  load_module w p target_module target_class = inr module →
  iter_classes module = before ++ klass :: after →
  check_docstring_directive (get_docstring klass) "enable" = true →
  check_docstring_directive (get_docstring klass) "disable" = false →
  Forall (λ later, name later ≠ name klass) after →
  find_python_tests w target_module target_class determine_match fuel p
    = Done (result, disabled) →
  odict_get (name klass) result = Some (own_methods klass)
  ∧ (∀ e, In e (own_methods klass) → declared_by klass e)
  ∧ (∀ st_name st_doc,
       In (FunctionDef st_name st_doc) (body klass) →
       String.prefix "test" st_name = true →
       In st_name (map method_name (own_methods klass)))
  ∧ NoDup (map method_name (own_methods klass))
  ∧ (∀ examine rest result0 disabled0,
       find_python_tests_loop w examine module (klass :: rest)
         result0 disabled0
       = find_python_tests_loop w examine module rest
           (odict_set (name klass) (own_methods klass) result0) disabled0).
Proof.
  intros Hload Hklasses Henable Hdisable Hafter.
  unfold find_python_tests. rewrite Hload, Hklasses.
  assert (∀ examine rest result0 disabled0,
            find_python_tests_loop w examine module (klass :: rest)
              result0 disabled0
            = find_python_tests_loop w examine module rest
                (odict_set (name klass) (own_methods klass) result0) disabled0)
    as Hstep.
  { intros examine rest result0 disabled0. simpl.
    by rewrite Hdisable, Henable. }
  rewrite find_python_tests_loop_app. intros Hrun.
  apply bind_Done in Hrun as ([result1 disabled1] & _ & Hrun).
  rewrite Hstep in Hrun.
  apply (find_python_tests_loop_other_key _ _ _ _ _ _ _ (name klass)) in Hrun;
    [|done].
  simpl in Hrun. rewrite odict_get_set_eq in Hrun.
  split; [done|].
  split; [apply get_methods_info_declared|].
  split; [apply get_methods_info_complete|].
  split; [apply get_methods_info_NoDup|exact Hstep].
Qed.

Lemma enabled_class_records_own_methods_witness :
  load_module Directives.world "/tests/test_directives.py" "avocado" "Test"
    = inr Directives.file
  ∧ iter_classes Directives.file
    = [] ++ Directives.Foo :: [Directives.Bar; Directives.Baz]
  ∧ check_docstring_directive (get_docstring Directives.Foo) "enable" = true
  ∧ check_docstring_directive (get_docstring Directives.Foo) "disable" = false
  ∧ Forall (λ later, name later ≠ name Directives.Foo)
      [Directives.Bar; Directives.Baz]
  ∧ find_python_tests Directives.world "avocado" "Test"
      _determine_match_avocado 0 "/tests/test_directives.py"
    = Done (Directives.found, Directives.set_aside)
  ∧ odict_get (name Directives.Foo) Directives.found
    = Some (own_methods Directives.Foo).
Proof.
  assert (find_python_tests Directives.world "avocado" "Test"
            _determine_match_avocado 0 "/tests/test_directives.py"
          = Done (Directives.found, Directives.set_aside)) as Hrun
    by (vm_compute; reflexivity).
  assert (Forall (λ later, name later ≠ name Directives.Foo)
            [Directives.Bar; Directives.Baz]) as Hlater
    by (repeat constructor; discriminate).
  do 4 (split; [reflexivity|]). split; [exact Hlater|]. split; [exact Hrun|].
  exact (proj1 (enabled_class_records_own_methods Directives.world
                  "avocado" "Test" _determine_match_avocado 0
                  "/tests/test_directives.py" Directives.file
                  [] [Directives.Bar; Directives.Baz] Directives.Foo
                  Directives.found Directives.set_aside
                  eq_refl eq_refl eq_refl eq_refl Hlater Hrun)).
Defined.

(** C4, as stated, fails: of two classes `Foo` that both carry `enable`,
    the first is not recorded with its own method `test_a`; the result
    holds the second one's `test_b` under `Foo`. *)
Lemma enabled_class_overwritten_by_namesake :
  In (SameName.one_class ["enable"] "test_a") SameName.enable_twice
  ∧ check_docstring_directive
      (get_docstring (SameName.one_class ["enable"] "test_a")) "enable" = true
  ∧ check_docstring_directive
      (get_docstring (SameName.one_class ["enable"] "test_a")) "disable" = false
  ∧ own_methods (SameName.one_class ["enable"] "test_a") = [entry "test_a" []]
  ∧ ¬ ∃ fuel result disabled,
        find_avocado_tests (SameName.world_with SameName.enable_twice) fuel
          "/tests/test_foo.py" = Done (result, disabled)
        ∧ odict_get "Foo" result
          = Some (own_methods (SameName.one_class ["enable"] "test_a")).
Proof.
  split; [by left|]. do 3 (split; [vm_compute; reflexivity|]).
  intros (fuel & result & disabled & Hrun & Hfoo).
  vm_compute in Hrun. injection Hrun as <- _. by vm_compute in Hfoo.
Qed.

(** C5, as the code has it.  The name of a top-level class whose docstring
    carries `disable` is in the disabled set, whatever its bases; the class
    adds no key to the result mapping and no call of the resolver is made
    for it; its name is a key of the result only if another top-level class
    of the same file has that name and no `disable`. *)
Theorem disabled_class_is_set_aside
    (w : World) (target_module target_class : string)
    (determine_match : PythonModule → ClassDef → DirectiveSet → bool)
    (fuel : nat) (p : string) (module : PythonModule) (klass : ClassDef)
    (result : ResultMap) (disabled : gset string) :
  load_module w p target_module target_class = inr module →
  In klass (iter_classes module) →
  check_docstring_directive (get_docstring klass) "disable" = true →
  find_python_tests w target_module target_class determine_match fuel p
    = Done (result, disabled) →
  name klass ∈ disabled
  ∧ (In (name klass) (odict_keys result) →
     ∃ other, In other (iter_classes module) ∧ name other = name klass
       ∧ check_docstring_directive (get_docstring other) "disable" = false)
  ∧ (∀ examine rest result0 disabled0,
       find_python_tests_loop w examine module (klass :: rest)
         result0 disabled0
       = find_python_tests_loop w examine module rest result0
           (disabled0 ∪ {[name klass]})).
Proof.
  intros Hload Hklass Hdisable Hrun.
  destruct (disabled_class_outcome _ _ _ _ _ _ _ _ _ _ Hload Hklass Hdisable
              Hrun) as [Hin Hkey].
  split; [done|split; [done|]].
  intros examine rest result0 disabled0. by apply disabled_class_step.
Qed.

Lemma disabled_class_is_set_aside_witness :
  load_module Directives.world "/tests/test_directives.py" "avocado" "Test"
    = inr Directives.file
  ∧ In Directives.Bar (iter_classes Directives.file)
  ∧ check_docstring_directive (get_docstring Directives.Bar) "disable" = true
  ∧ find_python_tests Directives.world "avocado" "Test"
      _determine_match_avocado 0 "/tests/test_directives.py"
    = Done (Directives.found, Directives.set_aside)
  ∧ name Directives.Bar ∈ Directives.set_aside.
Proof.
  assert (find_python_tests Directives.world "avocado" "Test"
            _determine_match_avocado 0 "/tests/test_directives.py"
          = Done (Directives.found, Directives.set_aside)) as Hrun
    by (vm_compute; reflexivity).
  assert (In Directives.Bar (iter_classes Directives.file)) as Hklass
    by (right; left; reflexivity).
  split; [reflexivity|split; [exact Hklass|split; [reflexivity|]]].
  split; [exact Hrun|].
  exact (proj1 (disabled_class_is_set_aside Directives.world
                  "avocado" "Test" _determine_match_avocado 0
                  "/tests/test_directives.py" Directives.file Directives.Bar
                  Directives.found Directives.set_aside
                  eq_refl Hklass eq_refl Hrun)).
Defined.

(** C5, as stated, fails: with a class `Foo` carrying `enable` followed by
    a class `Foo` carrying `disable`, the name `Foo` is in the disabled set
    and is a key of the result mapping as well. *)
Lemma disabled_name_is_a_result_key :
  In (SameName.one_class ["disable"] "test_b") SameName.enable_then_disable
  ∧ check_docstring_directive
      (get_docstring (SameName.one_class ["disable"] "test_b")) "disable"
    = true
  ∧ find_avocado_tests (SameName.world_with SameName.enable_then_disable) 0
      "/tests/test_foo.py"
    = Done ([("Foo", [entry "test_a" []])], {["Foo"]})
  ∧ In (name (SameName.one_class ["disable"] "test_b"))
      (odict_keys [("Foo", [entry "test_a" []])]).
Proof.
  split; [right; by left|]. split; [reflexivity|].
  split; [vm_compute; reflexivity|by left].
Qed.

(** C10, as the code has it.  When a docstring carries both `disable` and
    `enable`, `disable` wins: the class is handled exactly as a disabled
    one - its name goes to the disabled set, its methods are not collected
    and the result mapping is left as it was - so that its name is a key of
    the result only if another top-level class of the same file has that
    name and no `disable`. *)
Theorem disable_wins_over_enable
    (w : World) (target_module target_class : string)
    (determine_match : PythonModule → ClassDef → DirectiveSet → bool)
    (fuel : nat) (p : string) (module : PythonModule) (klass : ClassDef)
    (result : ResultMap) (disabled : gset string) :
  load_module w p target_module target_class = inr module →
  In klass (iter_classes module) →
  check_docstring_directive (get_docstring klass) "disable" = true →
  check_docstring_directive (get_docstring klass) "enable" = true →
  find_python_tests w target_module target_class determine_match fuel p
    = Done (result, disabled) →
  (∀ examine rest result0 disabled0,
     find_python_tests_loop w examine module (klass :: rest) result0 disabled0
     = find_python_tests_loop w examine module rest result0
         (disabled0 ∪ {[name klass]}))
  ∧ name klass ∈ disabled
  ∧ (In (name klass) (odict_keys result) →
     ∃ other, In other (iter_classes module) ∧ name other = name klass
       ∧ other ≠ klass
       ∧ check_docstring_directive (get_docstring other) "disable" = false).
Proof.
  intros Hload Hklass Hdisable _ Hrun.
  split; [intros; by apply disabled_class_step|].
  destruct (disabled_class_outcome _ _ _ _ _ _ _ _ _ _ Hload Hklass Hdisable
              Hrun) as [Hin Hkey].
  split; [done|]. intros Hres.
  destruct (Hkey Hres) as (other & Hother & Hname & Hno).
  exists other. repeat split; try done. intros ->. congruence.
Qed.

Lemma disable_wins_over_enable_witness :
  load_module Directives.world "/tests/test_directives.py" "avocado" "Test"
    = inr Directives.file
  ∧ In Directives.Baz (iter_classes Directives.file)
  ∧ check_docstring_directive (get_docstring Directives.Baz) "disable" = true
  ∧ check_docstring_directive (get_docstring Directives.Baz) "enable" = true
  ∧ find_python_tests Directives.world "avocado" "Test"
      _determine_match_avocado 0 "/tests/test_directives.py"
    = Done (Directives.found, Directives.set_aside)
  ∧ name Directives.Baz ∈ Directives.set_aside.
Proof.
  assert (find_python_tests Directives.world "avocado" "Test"
            _determine_match_avocado 0 "/tests/test_directives.py"
          = Done (Directives.found, Directives.set_aside)) as Hrun
    by (vm_compute; reflexivity).
  assert (In Directives.Baz (iter_classes Directives.file)) as Hklass
    by (right; right; left; reflexivity).
  split; [reflexivity|split; [exact Hklass|]].
  do 2 (split; [reflexivity|]). split; [exact Hrun|].
  exact (proj1 (proj2 (disable_wins_over_enable Directives.world
                  "avocado" "Test" _determine_match_avocado 0
                  "/tests/test_directives.py" Directives.file Directives.Baz
                  Directives.found Directives.set_aside
                  eq_refl Hklass eq_refl eq_refl Hrun))).
Defined.

(** C10, as stated, fails: a class `Foo` carrying `enable` is followed by a
    class `Foo` carrying both `enable` and `disable`; the second one's name
    is in the disabled set and `Foo` does appear in the result mapping. *)
Lemma class_with_both_directives_appears :
  In (SameName.one_class ["enable"; "disable"] "test_b")
    SameName.enable_then_both
  ∧ check_docstring_directive
      (get_docstring (SameName.one_class ["enable"; "disable"] "test_b"))
      "disable" = true
  ∧ check_docstring_directive
      (get_docstring (SameName.one_class ["enable"; "disable"] "test_b"))
      "enable" = true
  ∧ find_avocado_tests (SameName.world_with SameName.enable_then_both) 0
      "/tests/test_foo.py"
    = Done ([("Foo", [entry "test_a" []])], {["Foo"]})
  ∧ odict_get (name (SameName.one_class ["enable"; "disable"] "test_b"))
      [("Foo", [entry "test_a" []])]
    = Some [entry "test_a" []].
Proof.
  split; [right; by left|]. do 2 (split; [reflexivity|]).
  split; [vm_compute; reflexivity|reflexivity].
Qed.

(** * Further properties of core.py *)

(** ** get_methods_info *)

Lemma own_methods_class_of_body statement_body class_tags class_requirements :
  own_methods (class_of_body statement_body class_tags class_requirements)
  = get_methods_info statement_body class_tags class_requirements.
Proof. reflexivity. Qed.

Lemma get_methods_info_names_iff
    (statement_body : list stmt) (class_tags : gset string)
    (class_requirements : list string) (n : string) :
  In n (map method_name
          (get_methods_info statement_body class_tags class_requirements))
  ↔ ∃ st_doc, In (FunctionDef n st_doc) statement_body
              ∧ String.prefix "test" n = true.
Proof.
  rewrite <- own_methods_class_of_body. split.
  - intros Hn. apply in_map_iff in Hn as (e & <- & He).
    apply get_methods_info_declared in He
      as (st_name & st_doc & Hst & Hprefix & ->).
    by exists st_doc.
  - intros (st_doc & Hst & Hprefix).
    by apply (get_methods_info_complete (class_of_body _ _ _) n st_doc).
Qed.

(** X1.  The names that `get_methods_info` lists are exactly the names of
    the `def` statements of the body that start with `test`. *)
Theorem get_methods_info_names
    (statement_body : list stmt) (class_tags : gset string)
    (class_requirements : list string) (n : string) :
  In n (map method_name
          (get_methods_info statement_body class_tags class_requirements))
  ↔ ∃ st_doc, In (FunctionDef n st_doc) statement_body
              ∧ String.prefix "test" n = true.
Proof. apply get_methods_info_names_iff. Qed.

Lemma get_methods_info_NoDup_any
    (statement_body : list stmt) (class_tags : gset string)
    (class_requirements : list string) :
  NoDup (map method_name
           (get_methods_info statement_body class_tags class_requirements)).
Proof.
  rewrite <- own_methods_class_of_body. apply get_methods_info_NoDup.
Qed.

(** X2.  `get_methods_info` lists no method name twice, however often the
    body defines it. *)
Theorem get_methods_info_unique_names
    (statement_body : list stmt) (class_tags : gset string)
    (class_requirements : list string) :
  NoDup (map method_name
           (get_methods_info statement_body class_tags class_requirements)).
Proof. apply get_methods_info_NoDup_any. Qed.

Lemma methods_info_step_In class_tags class_requirements methods_info st e :
  In e methods_info →
  In e (methods_info_step class_tags class_requirements methods_info st).
Proof.
  intros He. destruct st as [st_name st_doc|]; simpl; [|done].
  destruct (String.prefix "test" st_name); [|done].
  case_bool_decide; [done|]. apply in_or_app. by left.
Qed.

Lemma methods_info_fold_In class_tags class_requirements statements acc e :
  In e acc →
  In e (fold_left (methods_info_step class_tags class_requirements)
          statements acc).
Proof.
  revert acc. induction statements as [|st statements IH]; intros acc He;
    simpl; [done|].
  by apply IH, methods_info_step_In.
Qed.

Lemma same_name_same_entry (info : list MethodInfo) (e e' : MethodInfo) :
  NoDup (map method_name info) →
  In e info → In e' info → method_name e = method_name e' → e = e'.
Proof.
  induction info as [|x info IH]; simpl; [done|].
  intros Hnd. apply NoDup_cons in Hnd as [Hx Hnd].
  intros [->|He] [->|He'] Hname; [done| | |by apply IH].
  - destruct Hx. rewrite Hname. apply list_elem_of_In, in_map, He'.
  - destruct Hx. rewrite <- Hname. apply list_elem_of_In, in_map, He.
Qed.

(** X3.  When a body defines a test method more than once, the first
    definition is the one listed: the entry under that name carries the
    first definition's docstring tags joined with the class tags, and its
    requirements followed by the class requirements. *)
Theorem get_methods_info_first_definition
    (before after : list stmt) (n : string) (st_doc : DirectiveSet)
    (class_tags : gset string) (class_requirements : list string)
    (e : MethodInfo) :
  String.prefix "test" n = true →
  (∀ earlier, ¬ In (FunctionDef n earlier) before) →
  In e (get_methods_info (before ++ FunctionDef n st_doc :: after)
          class_tags class_requirements) →
  method_name e = n →
  e = (n,
       get_docstring_directives_tags st_doc ∪ class_tags,
       get_docstring_directives_requirements st_doc ++ class_requirements).
Proof.
  intros Hprefix Hfirst He Hname.
  apply (same_name_same_entry _ _ _ (get_methods_info_NoDup_any _ _ _) He);
    [|done].
  unfold get_methods_info. rewrite fold_left_app. simpl.
  apply methods_info_fold_In. rewrite Hprefix.
  rewrite bool_decide_eq_false_2.
  - apply in_or_app. right. by left.
  - intros Hseen%list_elem_of_In.
    apply (get_methods_info_names_iff before class_tags class_requirements n)
      in Hseen as (earlier & Hearlier & _).
    by apply (Hfirst earlier).
Qed.

Lemma get_methods_info_first_definition_witness :
  String.prefix "test" "test_a" = true
  ∧ (∀ earlier, ¬ In (FunctionDef "test_a" earlier) [OtherStmt])
  ∧ In (entry "test_a" ["one"; "slow"])
      (get_methods_info
         ([OtherStmt] ++ FunctionDef "test_a" (with_tags ["one"])
            :: [test_method "test_a" ["two"]])
         {["slow"]} [])
  ∧ method_name (entry "test_a" ["one"; "slow"]) = "test_a"
  ∧ entry "test_a" ["one"; "slow"]
    = ("test_a",
       get_docstring_directives_tags (with_tags ["one"]) ∪ {["slow"]},
       get_docstring_directives_requirements (with_tags ["one"]) ++ []).
Proof.
  assert (∀ earlier, ¬ In (FunctionDef "test_a" earlier) [OtherStmt])
    as Hfirst by (intros earlier [|[]]; discriminate).
  assert (In (entry "test_a" ["one"; "slow"])
            (get_methods_info
               ([OtherStmt] ++ FunctionDef "test_a" (with_tags ["one"])
                  :: [test_method "test_a" ["two"]])
               {["slow"]} [])) as He by (vm_compute; left; reflexivity).
  split; [reflexivity|split; [exact Hfirst|split; [exact He|]]].
  split; [reflexivity|].
  exact (get_methods_info_first_definition [OtherStmt]
           [test_method "test_a" ["two"]] "test_a" (with_tags ["one"])
           {["slow"]} [] (entry "test_a" ["one"; "slow"])
           eq_refl Hfirst He eq_refl).
Defined.

(** X4.  Statements that are not `def`s, and `def`s whose name does not
    start with `test`, have no influence on what `get_methods_info`
    returns. *)
Theorem get_methods_info_ignores_other_statements
    (statement_body : list stmt) (class_tags : gset string)
    (class_requirements : list string) :
  get_methods_info statement_body class_tags class_requirements
  = get_methods_info (List.filter is_test_stmt statement_body)
      class_tags class_requirements.
Proof.
  unfold get_methods_info. generalize (@nil MethodInfo).
  induction statement_body as [|st statements IH]; intros acc; simpl; [done|].
  destruct (is_test_stmt st) eqn:Htest; simpl; [apply IH|].
  rewrite <- IH. f_equal.
  destruct st as [st_name st_doc|]; simpl in *; [|done]. by rewrite Htest.
Qed.


(** ** _extend_test_list *)

Lemma _extend_test_list_split (current new : list MethodInfo) :
  ∃ added,
    _extend_test_list current new = current ++ added
    ∧ (∀ e, In e added → In e new)
    ∧ (∀ e, In e added → ¬ In (method_name e) (map method_name current)).
Proof.
  unfold _extend_test_list. revert current.
  induction new as [|test new IH]; intros current; simpl.
  { exists []. by rewrite app_nil_r. }
  case_bool_decide as Hseen.
  - destruct (IH current) as (added & -> & Hnew & Hfresh).
    exists added. split; [done|]. split; [|done].
    intros e He. right. by apply Hnew.
  - destruct (IH (current ++ [test])) as (added & -> & Hnew & Hfresh).
    exists (test :: added). split; [by rewrite <- app_assoc|]. split.
    + intros e [<-|He]; [by left|right; by apply Hnew].
    + intros e [<-|He] Hin.
      * by apply Hseen, list_elem_of_In.
      * apply (Hfresh e He). rewrite map_app. apply in_or_app. by left.
Qed.

(** X5.  `_extend_test_list` only appends: the current list stays as it is
    at the front, and what is added behind it are entries of the new list
    whose names the current list did not have. *)
Theorem _extend_test_list_appends (current new : list MethodInfo) :
  ∃ added,
    _extend_test_list current new = current ++ added
    ∧ (∀ e, In e added → In e new)
    ∧ (∀ e, In e added → ¬ In (method_name e) (map method_name current)).
Proof. apply _extend_test_list_split. Qed.

(** X6.  If no name occurs twice in the current list, none occurs twice
    after `_extend_test_list`, whatever the new list holds. *)
Theorem _extend_test_list_keeps_names_unique (current new : list MethodInfo) :
  NoDup (map method_name current) →
  NoDup (map method_name (_extend_test_list current new)).
Proof.
  unfold _extend_test_list. revert current.
  induction new as [|test new IH]; intros current Hcurrent; simpl; [done|].
  apply IH. case_bool_decide as Hseen; [done|].
  rewrite map_app. simpl. apply NoDup_app. split; [done|].
  split; [|apply NoDup_singleton].
  intros n Hn ->%list_elem_of_singleton. by apply Hseen.
Qed.

Lemma _extend_test_list_keeps_names_unique_witness :
  NoDup (map method_name [entry "test_b" []])
  ∧ NoDup (map method_name
             (_extend_test_list [entry "test_b" []]
                [entry "test_a" []; entry "test_b" ["x"]; entry "test_a" ["y"]])).
Proof.
  assert (NoDup (map method_name [entry "test_b" []])) as Hcurrent
    by (repeat constructor; by intros []%elem_of_nil).
  split; [exact Hcurrent|].
  exact (_extend_test_list_keeps_names_unique [entry "test_b" []]
           [entry "test_a" []; entry "test_b" ["x"]; entry "test_a" ["y"]]
           Hcurrent).
Defined.

Lemma _extend_test_list_covers_new current new e :
  In e new →
  In (method_name e) (map method_name (_extend_test_list current new)).
Proof.
  unfold _extend_test_list. revert current.
  induction new as [|test new IH]; intros current; simpl; [done|].
  intros [->|He]; [|by apply IH].
  assert (In (method_name e)
            (map method_name
               (if bool_decide (method_name e ∈ map method_name current)
                then current else current ++ [e]))) as Hnow.
  { case_bool_decide as Hseen; [by apply list_elem_of_In|].
    rewrite map_app. apply in_or_app. right. by left. }
  revert Hnow. generalize (if bool_decide (method_name e ∈ map method_name current)
                           then current else current ++ [e]).
  intros current' Hnow.
  destruct (_extend_test_list_split current' new) as (added & Heq & _).
  unfold _extend_test_list in Heq. rewrite Heq, map_app.
  apply in_or_app. by left.
Qed.

(** X7.  After `_extend_test_list` the list holds the names of the current
    list and the names of the new list, and no other name. *)
Theorem _extend_test_list_names (current new : list MethodInfo) (n : string) :
  In n (map method_name (_extend_test_list current new))
  ↔ In n (map method_name current) ∨ In n (map method_name new).
Proof.
  split.
  - intros Hn. apply in_map_iff in Hn as (e & <- & He).
    apply _extend_test_list_In in He as [He|He]; [left|right]; by apply in_map.
  - intros [Hn|Hn].
    + destruct (_extend_test_list_split current new) as (added & -> & _).
      rewrite map_app. apply in_or_app. by left.
    + apply in_map_iff in Hn as (e & <- & He).
      by apply _extend_test_list_covers_new.
Qed.

Lemma _extend_test_list_absorbs current new :
  (∀ e, In e new → In (method_name e) (map method_name current)) →
  _extend_test_list current new = current.
Proof.
  unfold _extend_test_list.
  induction new as [|test new IH]; intros Hall; simpl; [done|].
  rewrite bool_decide_eq_true_2.
  - apply IH. intros e He. apply Hall. by right.
  - apply list_elem_of_In, Hall. by left.
Qed.

(** X8.  Extending twice with the same list is the same as extending
    once. *)
Theorem _extend_test_list_idempotent (current new : list MethodInfo) :
  _extend_test_list (_extend_test_list current new) new
  = _extend_test_list current new.
Proof.
  apply _extend_test_list_absorbs. intros e He.
  by apply _extend_test_list_covers_new.
Qed.

(** ** _get_attributes_for_further_examination *)

Lemma rpartition_spec (s : string) :
  match rpartition s with
  | None => count_sep s = 0
  | Some (h, t) =>
      s = String.append h (String.append "/" t)
      ∧ count_sep t = 0
      ∧ count_sep s = S (count_sep h)
  end.
Proof.
  induction s as [|c s IH]; simpl; [done|].
  destruct (rpartition s) as [[h t]|].
  - destruct IH as (-> & Ht & Hcount). simpl.
    split; [done|split; [done|]]. rewrite Hcount. lia.
  - unfold is_sep. destruct (Ascii.eqb c "/") eqn:Hc; simpl.
    + apply Ascii.eqb_eq in Hc as ->. by rewrite IH.
    + done.
Qed.

Lemma string_append_assoc (a b c : string) :
  String.append (String.append a b) c = String.append a (String.append b c).
Proof.
  induction a as [|x a IH]; [done|].
  change (String x (String.append (String.append a b) c)
          = String x (String.append a (String.append b c))).
  by rewrite IH.
Qed.

(** X9.  For a parent written as a plain name that the module imports,
    the import path is cut at its last two separators: the three parts
    returned, joined by separators, give the path back, and neither the
    module part nor the class part holds a separator.  A path with fewer
    than two separators makes the call raise ValueError. *)
Theorem plain_name_path_is_cut_in_three
    (module : PythonModule) (id _parent : string) :
  imported_objects module !! id = Some _parent →
  ((count_sep _parent < 2)%nat →
     _get_attributes_for_further_examination (Name id) module
     = inl ValueError)
  ∧ ((2 ≤ count_sep _parent)%nat →
     ∃ parent_path parent_module parent_class,
       _get_attributes_for_further_examination (Name id) module
         = inr (parent_path, parent_module, parent_class)
       ∧ _parent
         = String.append parent_path
             (String.append "/"
                (String.append parent_module
                   (String.append "/" parent_class)))
       ∧ count_sep parent_module = 0
       ∧ count_sep parent_class = 0).
Proof.
  intros Himport. simpl. rewrite Himport. unfold rsplit2.
  pose proof (rpartition_spec _parent) as Hlast.
  destruct (rpartition _parent) as [[h parent_class]|].
  - destruct Hlast as (Hcut & Hclass & Hcount).
    pose proof (rpartition_spec h) as Hprev.
    destruct (rpartition h) as [[parent_path parent_module]|].
    + destruct Hprev as (Hcut' & Hmodule & Hcount').
      split; [lia|]. intros _.
      exists parent_path, parent_module, parent_class.
      split; [done|]. split; [|done].
      rewrite Hcut, Hcut'. by rewrite string_append_assoc.
    + split; [done|]. lia.
  - split; [done|]. lia.
Qed.

Lemma plain_name_path_is_cut_in_three_witness :
  imported_objects ScenarioC.file !! "GenericTestBase"
    = Some "/tests/avocado/Test"
  ∧ (2 ≤ count_sep "/tests/avocado/Test")%nat
  ∧ ∃ parent_path parent_module parent_class,
      _get_attributes_for_further_examination (Name "GenericTestBase")
        ScenarioC.file
        = inr (parent_path, parent_module, parent_class)
      ∧ "/tests/avocado/Test"
        = String.append parent_path
            (String.append "/"
               (String.append parent_module
                  (String.append "/" parent_class)))
      ∧ count_sep parent_module = 0
      ∧ count_sep parent_class = 0.
Proof.
  assert ((2 ≤ count_sep "/tests/avocado/Test")%nat) as Hseps
    by (vm_compute; lia).
  split; [reflexivity|split; [exact Hseps|]].
  exact (proj2 (plain_name_path_is_cut_in_three ScenarioC.file
                  "GenericTestBase" "/tests/avocado/Test" eq_refl) Hseps).
Defined.

(** ** The loop over the parents in other modules *)

(** X10.  Parents that cannot be located - the import is unknown, the
    reference has more than one level, or no file is found - are passed
    over: the loop makes no call of the resolver and returns the method
    list, the disabled set and the match flag as they were. *)
Theorem unlocatable_parents_change_nothing
    (w : World) (examine : string → string → bool → outcome Examined)
    (merge : list MethodInfo → list MethodInfo → list MethodInfo)
    (module : PythonModule) (parents : list expr)
    (info : list MethodInfo) (disabled : gset string) (match_ : bool) :
  Forall (unlocatable w module) parents →
  other_module_loop w examine merge module parents info disabled match_
  = Done (info, disabled, match_).
Proof.
  induction 1 as [|parent parents Hparent _ IH]; simpl; [done|].
  destruct Hparent as [->|(pp & pm & pc & -> & Hfind)]; [exact IH|].
  simpl in Hfind. by rewrite Hfind.
Qed.

Lemma unlocatable_parents_change_nothing_witness :
  Forall (unlocatable ScenarioD.world ScenarioD.file)
    [Attribute (Name "unresolved") "Foreign";
     Attribute (Attribute (Name "a") "b") "Class"]
  ∧ other_module_loop ScenarioD.world (λ _ _ _, OutOfFuel)
      (λ info _info, info ++ _info) ScenarioD.file
      [Attribute (Name "unresolved") "Foreign";
       Attribute (Attribute (Name "a") "b") "Class"]
      [entry "test_x" []] ∅ false
    = Done ([entry "test_x" []], ∅, false).
Proof.
  assert (Forall (unlocatable ScenarioD.world ScenarioD.file)
            [Attribute (Name "unresolved") "Foreign";
             Attribute (Attribute (Name "a") "b") "Class"]) as Hparents
    by (repeat constructor; left; reflexivity).
  split; [exact Hparents|].
  exact (unlocatable_parents_change_nothing ScenarioD.world
           (λ _ _ _, OutOfFuel) (λ info _info, info ++ _info) ScenarioD.file
           _ [entry "test_x" []] ∅ false Hparents).
Defined.

(** ** The disabled set *)

Section Disabled.

Context (w : World) (target_module target_class : string).
Context (determine_match : PythonModule → ClassDef → DirectiveSet → bool).
Context (examine : string → string → bool → outcome Examined).
Context (Hnone : no_disabled examine).

Lemma same_module_loop_same_disabled module todo kept info disabled match_ r :
  same_module_loop examine module todo kept info disabled match_ = Done r →
  r.1.2 = disabled.
Proof.
  revert kept info disabled match_.
  induction todo as [|parent todo IH]; intros kept info disabled match_; simpl.
  { by intros [= <-]. }
  destruct parent as [parent_class| | |]; try by apply IH.
  intros Hrun.
  apply bind_Done in Hrun as ([[_info _dis] _m] & Hcall & Hrun).
  apply Hnone in Hcall. simpl in Hcall, Hrun. subst _dis.
  destruct _info; apply IH in Hrun; [done|].
  by rewrite Hrun, (right_id_L ∅ (∪)).
Qed.

Lemma other_module_loop_same_disabled merge module parents info disabled
    match_ r :
  other_module_loop w examine merge module parents info disabled match_
    = Done r →
  r.1.2 = disabled.
Proof.
  revert info disabled match_.
  induction parents as [|parent parents IH]; intros info disabled match_; simpl.
  { by intros [= <-]. }
  destruct (_get_attributes_for_further_examination parent module)
    as [[]|[[parent_path parent_module] parent_class]]; try done;
    try by apply IH.
  destruct (find_spec w _ _) as [origin|]; [|by apply IH].
  intros Hrun.
  apply bind_Done in Hrun as ([[_info _dis] _m] & Hcall & Hrun).
  apply Hnone in Hcall. simpl in Hcall, Hrun. subst _dis.
  destruct _info; apply IH in Hrun; [done|].
  by rewrite Hrun, (right_id_L ∅ (∪)).
Qed.

Lemma examine_class_loop_same_disabled module class_name klasses info
    disabled match_ r :
  examine_class_loop w determine_match examine module class_name klasses
    info disabled match_ = Done r →
  r.1.2 = disabled.
Proof.
  revert info disabled match_.
  induction klasses as [|klass klasses IH]; intros info disabled match_; simpl.
  { by intros [= <-]. }
  case_bool_decide; [by apply IH|].
  intros Hrun.
  apply bind_Done in Hrun as ([[[parents info1] disabled1] match1] & Hsame & Hrun).
  apply bind_Done in Hrun as ([[info2 disabled2] match2] & Hother & Hrun).
  apply same_module_loop_same_disabled in Hsame.
  apply other_module_loop_same_disabled in Hother.
  simpl in *. subst. by apply IH in Hrun.
Qed.

Lemma find_python_tests_loop_exact_disabled module klasses result disabled
    out n :
  find_python_tests_loop w examine module klasses result disabled = Done out →
  n ∈ out.2
  ↔ n ∈ disabled
    ∨ ∃ klass, In klass klasses ∧ name klass = n
        ∧ check_docstring_directive (get_docstring klass) "disable" = true.
Proof.
  revert result disabled.
  induction klasses as [|klass klasses IH]; intros result disabled; simpl.
  { intros [= <-]. simpl. split; [by left|]. by intros [?|(? & [] & _)]. }
  assert (∀ d : gset string,
            (n ∈ d
             ∨ ∃ k, In k klasses ∧ name k = n
                 ∧ check_docstring_directive (get_docstring k) "disable"
                   = true) →
            n ∈ d
            ∨ ∃ k, (klass = k ∨ In k klasses) ∧ name k = n
                ∧ check_docstring_directive (get_docstring k) "disable"
                  = true) as Hlater.
  { intros d [?|(k & Hk & ?)]; [by left|right]. exists k. auto. }
  destruct (check_docstring_directive (get_docstring klass) "disable")
    eqn:Hdisable.
  { intros Hrun. rewrite (IH _ _ Hrun). split.
    - intros [[Hn|Hn%elem_of_singleton]%elem_of_union|Hn];
        [by left| |by apply Hlater; right].
      right. exists klass. auto.
    - intros [Hn|(k & [<-|Hk] & Hname & Hdis)].
      + left. by apply elem_of_union_l.
      + left. apply elem_of_union_r. by apply elem_of_singleton.
      + right. by exists k. }
  assert (∀ out' : gset string, (n ∈ out'
             ↔ n ∈ disabled
               ∨ ∃ k, In k klasses ∧ name k = n
                   ∧ check_docstring_directive (get_docstring k) "disable"
                     = true) →
            n ∈ out'
            ↔ n ∈ disabled
              ∨ ∃ k, (klass = k ∨ In k klasses) ∧ name k = n
                  ∧ check_docstring_directive (get_docstring k) "disable"
                    = true) as Hskip.
  { intros out' ->. split; [apply Hlater|].
    intros [?|(k & [<-|Hk] & Hname & Hdis)]; [by left|congruence|].
    right. by exists k. }
  destruct (check_docstring_directive _ "enable").
  { intros Hrun. by apply Hskip, (IH _ _ Hrun). }
  intros Hrun.
  apply bind_Done in Hrun as ([[[parents info1] disabled1] match1] & Hsame & Hrun).
  apply bind_Done in Hrun as ([[info2 disabled2] match2] & Hother & Hrun).
  apply same_module_loop_same_disabled in Hsame.
  apply other_module_loop_same_disabled in Hother.
  simpl in *. subst.
  destruct match2; by apply Hskip, (IH _ _ Hrun).
Qed.

End Disabled.

Lemma _examine_class_no_disabled w target_module target_class determine_match
    fuel :
  no_disabled
    (_examine_class w target_module target_class determine_match fuel).
Proof.
  induction fuel as [|fuel IH]; intros p c m r; simpl; [done|].
  unfold examine_class_body.
  destruct (load_module w p target_module target_class) as [|module]; [done|].
  by apply examine_class_loop_same_disabled.
Qed.

(** X11.  The resolver never reports a disabled class: whatever classes it
    visits, with whatever directives, the disabled set that
    `_examine_class` returns is empty. *)
Theorem examine_class_disabled_set_is_empty
    (w : World) (target_module target_class : string)
    (determine_match : PythonModule → ClassDef → DirectiveSet → bool)
    (fuel : nat) (p class_name : string) (match_ : bool)
    (info : list MethodInfo) (disabled : gset string) (match' : bool) :
  _examine_class w target_module target_class determine_match fuel
    p class_name match_ = Done (info, disabled, match') →
  disabled = ∅.
Proof. intros Hrun. by apply _examine_class_no_disabled in Hrun. Qed.

Lemma examine_class_disabled_set_is_empty_witness :
  _examine_class Directives.world "avocado" "Test" _determine_match_avocado 1
    "/tests/test_directives.py" "Bar" false
  = Done ([entry "test_two" []], ∅, true)
  ∧ (∅ : gset string) = ∅.
Proof.
  assert (_examine_class Directives.world "avocado" "Test"
            _determine_match_avocado 1 "/tests/test_directives.py" "Bar" false
          = Done ([entry "test_two" []], ∅, true)) as Hrun
    by (vm_compute; reflexivity).
  split; [exact Hrun|].
  exact (examine_class_disabled_set_is_empty Directives.world "avocado" "Test"
           _determine_match_avocado 1 "/tests/test_directives.py" "Bar" false
           _ _ _ Hrun).
Defined.

(** X12.  The disabled set that `find_python_tests` returns holds exactly
    the names of the top-level classes of the scanned file whose docstring
    carries `disable`; classes reached through inheritance, in this file or
    another, add nothing to it. *)
Theorem disabled_set_is_the_disabled_classes_of_the_file
    (w : World) (target_module target_class : string)
    (determine_match : PythonModule → ClassDef → DirectiveSet → bool)
    (fuel : nat) (p : string) (module : PythonModule)
    (result : ResultMap) (disabled : gset string) (n : string) :
  load_module w p target_module target_class = inr module →
  find_python_tests w target_module target_class determine_match fuel p
    = Done (result, disabled) →
  n ∈ disabled
  ↔ ∃ klass, In klass (iter_classes module) ∧ name klass = n
      ∧ check_docstring_directive (get_docstring klass) "disable" = true.
Proof.
  intros Hload. unfold find_python_tests. rewrite Hload. intros Hrun.
  rewrite (find_python_tests_loop_exact_disabled _ _
             (_examine_class_no_disabled _ _ _ _ fuel) _ _ _ _ _ n Hrun).
  simpl. split; [|by right]. by intros [?%not_elem_of_empty|].
Qed.

Lemma disabled_set_is_the_disabled_classes_of_the_file_witness :
  load_module Directives.world "/tests/test_directives.py" "avocado" "Test"
    = inr Directives.file
  ∧ find_python_tests Directives.world "avocado" "Test"
      _determine_match_avocado 0 "/tests/test_directives.py"
    = Done (Directives.found, Directives.set_aside)
  ∧ ("Baz" ∈ Directives.set_aside
     ↔ ∃ klass, In klass (iter_classes Directives.file) ∧ name klass = "Baz"
         ∧ check_docstring_directive (get_docstring klass) "disable" = true).
Proof.
  assert (find_python_tests Directives.world "avocado" "Test"
            _determine_match_avocado 0 "/tests/test_directives.py"
          = Done (Directives.found, Directives.set_aside)) as Hrun
    by (vm_compute; reflexivity).
  split; [reflexivity|split; [exact Hrun|]].
  exact (disabled_set_is_the_disabled_classes_of_the_file Directives.world
           "avocado" "Test" _determine_match_avocado 0
           "/tests/test_directives.py" Directives.file Directives.found
           Directives.set_aside "Baz" eq_refl Hrun).
Defined.


(** ** What the match flag does not touch *)

Section MatchBlind.

Context (w : World) (target_module target_class : string).
Context (determine_match : PythonModule → ClassDef → DirectiveSet → bool).
Context (examine : string → string → bool → outcome Examined).
Context (Hblind : match_blind examine).

Lemma same_module_loop_blind module todo kept info disabled m1 m2 :
  drop_match (same_module_loop examine module todo kept info disabled m1)
  = drop_match (same_module_loop examine module todo kept info disabled m2).
Proof.
  revert kept info disabled m1 m2.
  induction todo as [|parent todo IH]; intros kept info disabled m1 m2; simpl;
    [done|].
  destruct parent as [parent_class| | |]; try apply IH.
  pose proof (Hblind (path module) parent_class m1 m2) as Hcall.
  destruct (examine (path module) parent_class m1) as [[[i1 d1] r1]| |],
    (examine (path module) parent_class m2) as [[[i2 d2] r2]| |];
    simpl in *; try discriminate; [|by injection Hcall as ->|reflexivity].
  injection Hcall as -> ->. destruct i2; apply IH.
Qed.

Lemma other_module_loop_blind merge module parents info disabled m1 m2 :
  drop_match
    (other_module_loop w examine merge module parents info disabled m1)
  = drop_match
      (other_module_loop w examine merge module parents info disabled m2).
Proof.
  revert info disabled m1 m2.
  induction parents as [|parent parents IH]; intros info disabled m1 m2; simpl;
    [done|].
  destruct (_get_attributes_for_further_examination parent module)
    as [[]|[[parent_path parent_module] parent_class]]; try done;
    try apply IH.
  destruct (find_spec w _ _) as [origin|]; [|apply IH].
  pose proof (Hblind origin parent_class m1 m2) as Hcall.
  destruct (examine origin parent_class m1) as [[[i1 d1] r1]| |],
    (examine origin parent_class m2) as [[[i2 d2] r2]| |];
    simpl in *; try discriminate; [|by injection Hcall as ->|reflexivity].
  injection Hcall as -> ->. destruct i2; apply IH.
Qed.

Lemma examine_class_loop_blind module class_name klasses info disabled m1 m2 :
  drop_match
    (examine_class_loop w determine_match examine module class_name klasses
       info disabled m1)
  = drop_match
      (examine_class_loop w determine_match examine module class_name klasses
         info disabled m2).
Proof.
  revert info disabled m1 m2.
  induction klasses as [|klass klasses IH]; intros info disabled m1 m2; simpl;
    [done|].
  case_bool_decide; [apply IH|].
  set (a1 := if negb m1 then _ else m1).
  set (a2 := if negb m2 then _ else m2). clearbody a1 a2.
  unfold _examine_same_module.
  pose proof (same_module_loop_blind module (bases klass) []
                (get_methods_info (body klass)
                   (get_docstring_directives_tags (get_docstring klass))
                   (get_docstring_directives_requirements
                      (get_docstring klass)))
                disabled a1 a2) as Hsame.
  destruct (same_module_loop examine module (bases klass) [] _ disabled a1)
    as [[[[ps1 i1] d1] r1]| |],
    (same_module_loop examine module (bases klass) [] _ disabled a2)
    as [[[[ps2 i2] d2] r2]| |]; simpl in *; try discriminate;
    [|by injection Hsame as ->|reflexivity].
  injection Hsame as -> -> ->.
  pose proof (other_module_loop_blind _extend_test_list module ps2 i2 d2 r1 r2)
    as Hother.
  destruct (other_module_loop w examine _ module ps2 i2 d2 r1)
    as [[[j1 e1] s1]| |],
    (other_module_loop w examine _ module ps2 i2 d2 r2)
    as [[[j2 e2] s2]| |]; simpl in *; try discriminate;
    [|by injection Hother as ->|reflexivity].
  injection Hother as -> ->. apply IH.
Qed.

End MatchBlind.

Lemma _examine_class_blind w target_module target_class determine_match fuel :
  match_blind
    (_examine_class w target_module target_class determine_match fuel).
Proof.
  induction fuel as [|fuel IH]; intros p c m1 m2; simpl; [done|].
  unfold examine_class_body.
  destruct (load_module w p target_module target_class) as [|module]; [done|].
  by apply examine_class_loop_blind.
Qed.

(** X13.  The match flag passed to `_examine_class` decides nothing but the
    flag that comes back: whether the call returns, raises or recurses
    without end, and the method list and disabled set it returns, are the
    same for `match=True` and `match=False`. *)
Theorem examine_class_methods_do_not_depend_on_match
    (w : World) (target_module target_class : string)
    (determine_match : PythonModule → ClassDef → DirectiveSet → bool)
    (fuel : nat) (p class_name : string) :
  drop_match
    (_examine_class w target_module target_class determine_match fuel
       p class_name true)
  = drop_match
      (_examine_class w target_module target_class determine_match fuel
         p class_name false).
Proof. apply _examine_class_blind. Qed.

(** ** Where a match comes from *)

Lemma examine_class_loop_accepted w determine_match examine module class_name
    klasses klass info disabled match_ r :
  keeps_match examine →
  In klass klasses →
  name klass = class_name →
  determine_match module klass (get_docstring klass) = true →
  examine_class_loop w determine_match examine module class_name klasses
    info disabled match_ = Done r →
  r.2 = true.
Proof.
  intros Hkeeps Hin Hname Haccepts. revert info disabled match_ Hin.
  induction klasses as [|k klasses IH]; intros info disabled match_ Hin;
    [done|].
  simpl. case_bool_decide as Hother.
  { destruct Hin as [->|Hin]; [by destruct Hother|by apply IH]. }
  intros Hrun.
  apply bind_Done in Hrun as ([[[parents info1] disabled1] match1] & Hsame & Hrun).
  apply bind_Done in Hrun as ([[info2 disabled2] match2] & Hother' & Hrun).
  simpl in Hrun.
  destruct Hin as [->|Hin]; [|by eapply IH].
  assert ((if negb match_
           then determine_match module klass (get_docstring klass)
           else match_) = true) as Hnow
    by (rewrite Haccepts; by destruct match_).
  rewrite Hnow in Hsame.
  apply same_module_loop_keeps in Hsame; [|done]. simpl in Hsame. subst match1.
  apply other_module_loop_keeps in Hother'; [|done]. simpl in Hother'.
  subst match2.
  by apply (examine_class_loop_keeps w determine_match) in Hrun.
Qed.

Lemma _determine_match_avocado_directive module klass docstring :
  has_directive docstring = true →
  _determine_match_avocado module klass docstring = true.
Proof.
  unfold has_directive, check_docstring_directive, _determine_match_avocado.
  repeat case_bool_decide; simpl; done.
Qed.

(** X14.  For the avocado finder a directive on an ancestor settles the
    match: when the class that `_examine_class` is asked for carries
    `disable`, `enable` or `recursive`, the call returns the match flag
    True, whatever the class inherits from and whatever flag was passed. *)
Theorem directive_on_examined_class_is_a_match
    (w : World) (target_module target_class : string)
    (fuel : nat) (p class_name : string) (module : PythonModule)
    (klass : ClassDef) (match_ : bool)
    (info : list MethodInfo) (disabled : gset string) (match' : bool) :
  load_module w p target_module target_class = inr module →
  In klass (iter_classes module) →
  name klass = class_name →
  has_directive (get_docstring klass) = true →
  _examine_class w target_module target_class _determine_match_avocado fuel
    p class_name match_ = Done (info, disabled, match') →
  match' = true.
Proof.
  intros Hload Hin Hname Hdirective.
  destruct fuel as [|fuel]; [done|]. simpl. unfold examine_class_body.
  rewrite Hload. intros Hrun.
  eapply (examine_class_loop_accepted _ _ _ _ _ _ klass) in Hrun; try done.
  - apply _examine_class_keeps.
  - by apply _determine_match_avocado_directive.
Qed.

Lemma directive_on_examined_class_is_a_match_witness :
  load_module Directives.world "/tests/test_directives.py" "avocado" "Test"
    = inr Directives.file
  ∧ In Directives.Bar (iter_classes Directives.file)
  ∧ name Directives.Bar = "Bar"
  ∧ has_directive (get_docstring Directives.Bar) = true
  ∧ _examine_class Directives.world "avocado" "Test" _determine_match_avocado
      1 "/tests/test_directives.py" "Bar" false
    = Done ([entry "test_two" []], ∅, true)
  ∧ true = true.
Proof.
  assert (_examine_class Directives.world "avocado" "Test"
            _determine_match_avocado 1 "/tests/test_directives.py" "Bar" false
          = Done ([entry "test_two" []], ∅, true)) as Hrun
    by (vm_compute; reflexivity).
  assert (In Directives.Bar (iter_classes Directives.file)) as Hin
    by (right; left; reflexivity).
  split; [reflexivity|split; [exact Hin|]].
  do 2 (split; [reflexivity|]). split; [exact Hrun|].
  exact (directive_on_examined_class_is_a_match Directives.world
           "avocado" "Test" 1 "/tests/test_directives.py" "Bar"
           Directives.file Directives.Bar false _ _ true
           eq_refl Hin eq_refl eq_refl Hrun).
Defined.

Section Origin.

Context (w : World) (target_module target_class : string).
Context (determine_match : PythonModule → ClassDef → DirectiveSet → bool).
Context (J : Prop).
Context (examine : string → string → bool → outcome Examined).
Context (Hjust : ∀ p c info disabled,
            examine p c false = Done (info, disabled, true) → J).

Lemma same_module_loop_origin module todo kept info disabled r :
  same_module_loop examine module todo kept info disabled false = Done r →
  r.2 = true → J.
Proof.
  revert kept info disabled.
  induction todo as [|parent todo IH]; intros kept info disabled; simpl.
  { by intros [= <-]. }
  destruct parent as [parent_class| | |]; try apply IH.
  intros Hrun Htrue.
  apply bind_Done in Hrun as ([[_info _dis] _m] & Hcall & Hrun).
  simpl in Hrun. destruct _m; [by eapply Hjust|].
  destruct _info; by eapply IH.
Qed.

Lemma other_module_loop_origin merge module parents info disabled r :
  other_module_loop w examine merge module parents info disabled false
    = Done r →
  r.2 = true → J.
Proof.
  revert info disabled.
  induction parents as [|parent parents IH]; intros info disabled; simpl.
  { by intros [= <-]. }
  destruct (_get_attributes_for_further_examination parent module)
    as [[]|[[parent_path parent_module] parent_class]]; try done;
    try apply IH.
  destruct (find_spec w _ _) as [origin|]; [|apply IH].
  intros Hrun Htrue.
  apply bind_Done in Hrun as ([[_info _dis] _m] & Hcall & Hrun).
  simpl in Hrun. destruct _m; [by eapply Hjust|].
  destruct _info; by eapply IH.
Qed.

Lemma examine_class_loop_origin module class_name klasses info disabled r :
  (∀ klass, In klass klasses →
     determine_match module klass (get_docstring klass) = true → J) →
  examine_class_loop w determine_match examine module class_name klasses
    info disabled false = Done r →
  r.2 = true → J.
Proof.
  revert info disabled.
  induction klasses as [|klass klasses IH]; intros info disabled Haccept; simpl.
  { by intros [= <-]. }
  assert (∀ k, In k klasses →
            determine_match module k (get_docstring k) = true → J) as Hrest
    by (intros k Hk; apply Haccept; by right).
  case_bool_decide; [by apply IH|].
  destruct (determine_match module klass (get_docstring klass)) eqn:Hdm.
  { intros _ _. apply (Haccept klass); [by left|done]. }
  intros Hrun Htrue.
  apply bind_Done in Hrun as ([[[parents info1] disabled1] match1] & Hsame & Hrun).
  apply bind_Done in Hrun as ([[info2 disabled2] match2] & Hother & Hrun).
  simpl in Hrun.
  destruct match1; [by eapply same_module_loop_origin|].
  destruct match2; [by eapply other_module_loop_origin|].
  by eapply IH.
Qed.

End Origin.

Lemma _examine_class_origin w target_module target_class determine_match fuel
    p c info disabled :
  _examine_class w target_module target_class determine_match fuel p c false
    = Done (info, disabled, true) →
  accepted_somewhere w target_module target_class determine_match.
Proof.
  revert p c info disabled.
  induction fuel as [|fuel IH]; intros p c info disabled; simpl; [done|].
  unfold examine_class_body.
  destruct (load_module w p target_module target_class) as [|module] eqn:Hload;
    [done|].
  intros Hrun.
  eapply (examine_class_loop_origin w determine_match _ _ IH) in Hrun;
    [done| |done].
  intros klass Hklass Hdm. by exists p, module, klass.
Qed.

(** X15.  A match is never made up: when `_examine_class` is given the
    flag False and returns True, `determine_match` has accepted some class
    of some file that could be loaded. *)
Theorem match_comes_from_an_accepted_class
    (w : World) (target_module target_class : string)
    (determine_match : PythonModule → ClassDef → DirectiveSet → bool)
    (fuel : nat) (p class_name : string)
    (info : list MethodInfo) (disabled : gset string) :
  _examine_class w target_module target_class determine_match fuel
    p class_name false = Done (info, disabled, true) →
  ∃ q module klass,
    load_module w q target_module target_class = inr module
    ∧ In klass (iter_classes module)
    ∧ determine_match module klass (get_docstring klass) = true.
Proof. apply _examine_class_origin. Qed.

Lemma match_comes_from_an_accepted_class_witness :
  _examine_class ScenarioC.world "avocado" "Test" _determine_match_avocado 2
    "/tests/test_c.py" "Base" false
  = Done ([entry "test_a" []], ∅, true)
  ∧ ∃ q module klass,
      load_module ScenarioC.world q "avocado" "Test" = inr module
      ∧ In klass (iter_classes module)
      ∧ _determine_match_avocado module klass (get_docstring klass) = true.
Proof.
  assert (_examine_class ScenarioC.world "avocado" "Test"
            _determine_match_avocado 2 "/tests/test_c.py" "Base" false
          = Done ([entry "test_a" []], ∅, true)) as Hrun
    by (vm_compute; reflexivity).
  split; [exact Hrun|].
  exact (match_comes_from_an_accepted_class ScenarioC.world "avocado" "Test"
           _determine_match_avocado 2 "/tests/test_c.py" "Base" _ _ Hrun).
Defined.

(** ** Which classes are reported *)

Lemma odict_keys_set_here key value (d : ResultMap) :
  In key (odict_keys (odict_set key value d)).
Proof.
  unfold odict_keys. induction d as [|[k v] d IH]; simpl; [by left|].
  case_bool_decide; simpl; [by left|by right].
Qed.

Lemma odict_keys_set_mono key value (d : ResultMap) k :
  In k (odict_keys d) → In k (odict_keys (odict_set key value d)).
Proof.
  unfold odict_keys. induction d as [|[k' v'] d IH]; simpl; [done|].
  case_bool_decide; simpl; [done|]. intros [?|?]; [by left|right; by apply IH].
Qed.

Lemma find_python_tests_loop_keys_mono w examine module klasses result
    disabled out k :
  find_python_tests_loop w examine module klasses result disabled = Done out →
  In k (odict_keys result) → In k (odict_keys out.1).
Proof.
  revert result disabled.
  induction klasses as [|klass klasses IH]; intros result disabled Hrun Hk.
  { by injection Hrun as <-. }
  apply find_python_tests_loop_cons in Hrun
    as (result' & disabled' & Hstep & Hrun).
  apply (IH _ _ Hrun).
  destruct Hstep; auto using odict_keys_set_mono.
Qed.

Lemma find_python_tests_loop_reports w examine module klasses klass result
    disabled out :
  keeps_match examine →
  In klass klasses →
  check_docstring_directive (get_docstring klass) "disable" = false →
  check_docstring_directive (get_docstring klass) "enable" = true
  ∨ check_docstring_directive (get_docstring klass) "recursive" = true
  ∨ is_matching_klass module klass = true →
  find_python_tests_loop w examine module klasses result disabled = Done out →
  In (name klass) (odict_keys out.1).
Proof.
  intros Hkeeps Hin Hdisable Hreason. revert result disabled Hin.
  induction klasses as [|k klasses IH]; intros result disabled Hin Hrun;
    [done|].
  destruct Hin as [->|Hin].
  - simpl in Hrun. rewrite Hdisable in Hrun.
    destruct (check_docstring_directive (get_docstring klass) "enable")
      eqn:Henable.
    { apply (find_python_tests_loop_keys_mono _ _ _ _ _ _ _ _ Hrun).
      apply odict_keys_set_here. }
    assert ((if check_docstring_directive (get_docstring klass) "recursive"
             then true else is_matching_klass module klass) = true) as Hnow.
    { destruct Hreason as [Hen|[Hrec|Hmatch]]; [congruence| |].
      - by rewrite Hrec.
      - rewrite Hmatch.
        destruct (check_docstring_directive (get_docstring klass) "recursive");
          reflexivity. }
    rewrite Hnow in Hrun.
    apply bind_Done in Hrun
      as ([[[parents info1] disabled1] match1] & Hsame & Hrun).
    apply bind_Done in Hrun as ([[info2 disabled2] match2] & Hother & Hrun).
    apply same_module_loop_keeps in Hsame; [|done]. simpl in Hsame.
    subst match1.
    apply other_module_loop_keeps in Hother; [|done]. simpl in Hother.
    subst match2. simpl in Hrun.
    apply (find_python_tests_loop_keys_mono _ _ _ _ _ _ _ _ Hrun).
    apply odict_keys_set_here.
  - apply find_python_tests_loop_cons in Hrun
      as (result' & disabled' & _ & Hrun).
    by eapply IH.
Qed.

(** X16.  A top-level class without `disable` that carries `enable` or
    `recursive`, or that is itself a structural match, is always reported:
    whenever discovery completes, the class's name is a key of the
    result, whatever its ancestors turn out to be. *)
Theorem marked_or_matching_class_is_reported
    (w : World) (target_module target_class : string)
    (determine_match : PythonModule → ClassDef → DirectiveSet → bool)
    (fuel : nat) (p : string) (module : PythonModule) (klass : ClassDef)
    (result : ResultMap) (disabled : gset string) :
  load_module w p target_module target_class = inr module →
  In klass (iter_classes module) →
  check_docstring_directive (get_docstring klass) "disable" = false →
  check_docstring_directive (get_docstring klass) "enable" = true
  ∨ check_docstring_directive (get_docstring klass) "recursive" = true
  ∨ is_matching_klass module klass = true →
  find_python_tests w target_module target_class determine_match fuel p
    = Done (result, disabled) →
  In (name klass) (odict_keys result).
Proof.
  intros Hload Hin Hdisable Hreason. unfold find_python_tests. rewrite Hload.
  intros Hrun.
  eapply (find_python_tests_loop_reports _ _ _ _ klass) in Hrun; try done.
  apply _examine_class_keeps.
Qed.

Lemma marked_or_matching_class_is_reported_witness :
  load_module ScenarioC.world "/tests/test_c.py" "avocado" "Test"
    = inr ScenarioC.file
  ∧ In ScenarioC.Base (iter_classes ScenarioC.file)
  ∧ check_docstring_directive (get_docstring ScenarioC.Base) "disable" = false
  ∧ is_matching_klass ScenarioC.file ScenarioC.Base = true
  ∧ find_python_tests ScenarioC.world "avocado" "Test"
      _determine_match_avocado 2 "/tests/test_c.py"
    = Done ([("Base", [entry "test_a" []]);
             ("Child", [entry "test_b" []; entry "test_a" []])], ∅)
  ∧ In (name ScenarioC.Base)
      (odict_keys [("Base", [entry "test_a" []]);
                   ("Child", [entry "test_b" []; entry "test_a" []])]).
Proof.
  assert (find_python_tests ScenarioC.world "avocado" "Test"
            _determine_match_avocado 2 "/tests/test_c.py"
          = Done ([("Base", [entry "test_a" []]);
                   ("Child", [entry "test_b" []; entry "test_a" []])], ∅))
    as Hrun by (vm_compute; reflexivity).
  assert (In ScenarioC.Base (iter_classes ScenarioC.file)) as Hin
    by (left; reflexivity).
  split; [reflexivity|split; [exact Hin|]].
  do 2 (split; [reflexivity|]). split; [exact Hrun|].
  exact (marked_or_matching_class_is_reported ScenarioC.world "avocado" "Test"
           _determine_match_avocado 2 "/tests/test_c.py" ScenarioC.file
           ScenarioC.Base _ _ eq_refl Hin eq_refl
           (or_intror (or_intror eq_refl)) Hrun).
Defined.

Lemma find_python_tests_loop_key_reason w (J : Prop) examine module klasses
    result disabled out n :
  (∀ p c info disabled, examine p c false = Done (info, disabled, true) → J) →
  find_python_tests_loop w examine module klasses result disabled = Done out →
  In n (odict_keys out.1) →
  In n (odict_keys result)
  ∨ ∃ klass, In klass klasses ∧ name klass = n
      ∧ check_docstring_directive (get_docstring klass) "disable" = false
      ∧ (check_docstring_directive (get_docstring klass) "enable" = true
         ∨ check_docstring_directive (get_docstring klass) "recursive" = true
         ∨ is_matching_klass module klass = true
         ∨ J).
Proof.
  intros Hjust. revert result disabled.
  induction klasses as [|klass klasses IH]; intros result disabled; simpl.
  { intros [= <-]. by left. }
  assert (∀ result' disabled',
            find_python_tests_loop w examine module klasses result' disabled'
              = Done out →
            In n (odict_keys out.1) →
            In n (odict_keys result')
            ∨ ∃ k, (klass = k ∨ In k klasses) ∧ name k = n
                ∧ check_docstring_directive (get_docstring k) "disable"
                  = false
                ∧ (check_docstring_directive (get_docstring k) "enable" = true
                   ∨ check_docstring_directive (get_docstring k) "recursive"
                     = true
                   ∨ is_matching_klass module k = true
                   ∨ J)) as Hlater.
  { intros result' disabled' Hrun Hn.
    destruct (IH _ _ Hrun Hn) as [?|(k & Hk & ?)]; [by left|right].
    exists k. auto. }
  destruct (check_docstring_directive (get_docstring klass) "disable")
    eqn:Hdisable; [apply Hlater|].
  assert (∀ info disabled',
            check_docstring_directive (get_docstring klass) "enable" = true
            ∨ check_docstring_directive (get_docstring klass) "recursive"
              = true
            ∨ is_matching_klass module klass = true
            ∨ J →
            find_python_tests_loop w examine module klasses
              (odict_set (name klass) info result) disabled' = Done out →
            In n (odict_keys out.1) →
            In n (odict_keys result)
            ∨ ∃ k, (klass = k ∨ In k klasses) ∧ name k = n
                ∧ check_docstring_directive (get_docstring k) "disable"
                  = false
                ∧ (check_docstring_directive (get_docstring k) "enable" = true
                   ∨ check_docstring_directive (get_docstring k) "recursive"
                     = true
                   ∨ is_matching_klass module k = true
                   ∨ J)) as Hrecorded.
  { intros info disabled' Hreason Hrun Hn.
    destruct (Hlater _ _ Hrun Hn) as [Hkey|?]; [|by right].
    apply odict_keys_set in Hkey as [->|?]; [right|by left].
    exists klass. auto. }
  destruct (check_docstring_directive (get_docstring klass) "enable")
    eqn:Henable; [apply Hrecorded; by left|].
  intros Hrun Hn.
  apply bind_Done in Hrun
    as ([[[parents info1] disabled1] match1] & Hsame & Hrun).
  apply bind_Done in Hrun as ([[info2 disabled2] match2] & Hother & Hrun).
  simpl in Hrun.
  destruct match2; [|by eapply Hlater].
  eapply Hrecorded; [|exact Hrun|exact Hn].
  destruct (check_docstring_directive (get_docstring klass) "recursive");
    [by right; left|].
  destruct (is_matching_klass module klass); [by right; right; left|].
  right; right; right.
  destruct match1.
  - by eapply same_module_loop_origin.
  - by eapply other_module_loop_origin.
Qed.



(** X18.  The unittest finder reports a class only if the class itself
    carries `enable` or `recursive`, or some class of a loaded file is a
    structural match of `unittest.TestCase`, and the class has no
    `disable`; a directive on an ancestor is no reason for it. *)
Theorem unittest_finder_needs_a_structural_match
    (w : World) (fuel : nat) (p : string) (module : PythonModule)
    (found : ResultMap) (n : string) :
  load_module w p "unittest" "TestCase" = inr module →
  find_python_unittests w fuel p = Done found →
  In n (odict_keys found) →
  ∃ klass, In klass (iter_classes module) ∧ name klass = n
    ∧ check_docstring_directive (get_docstring klass) "disable" = false
    ∧ (check_docstring_directive (get_docstring klass) "enable" = true
       ∨ check_docstring_directive (get_docstring klass) "recursive" = true
       ∨ ∃ q module' klass',
           load_module w q "unittest" "TestCase" = inr module'
           ∧ In klass' (iter_classes module')
           ∧ is_matching_klass module' klass' = true).
Proof.
  intros Hload. unfold find_python_unittests, find_python_tests.
  rewrite Hload. intros Hrun Hn.
  apply bind_Done in Hrun as ([result disabled] & Hrun & [= <-]).
  destruct (find_python_tests_loop_key_reason w
              (accepted_somewhere w "unittest" "TestCase"
                 _determine_match_unittest)
              _ _ _ _ _ _ n
              (_examine_class_origin w _ _ _determine_match_unittest fuel)
              Hrun Hn)
    as [[]|(klass & Hin & Hname & Hdisable & Hreason)].
  exists klass. do 3 (split; [done|]).
  destruct Hreason as [?|[?|[Hmatch|Hwhere]]]; [by left|by right; left| |].
  - right; right. by exists p, module, klass.
  - right; right. exact Hwhere.
Qed.

Lemma unittest_finder_needs_a_structural_match_witness :
  load_module UnittestFile.world "/tests/test_unit.py" "unittest" "TestCase"
    = inr UnittestFile.file
  ∧ find_python_unittests UnittestFile.world 1 "/tests/test_unit.py"
    = Done [("Plain", [entry "test_x" []])]
  ∧ In "Plain" (odict_keys [("Plain", [entry "test_x" []])])
  ∧ ∃ klass, In klass (iter_classes UnittestFile.file) ∧ name klass = "Plain"
      ∧ check_docstring_directive (get_docstring klass) "disable" = false
      ∧ (check_docstring_directive (get_docstring klass) "enable" = true
         ∨ check_docstring_directive (get_docstring klass) "recursive" = true
         ∨ ∃ q module' klass',
             load_module UnittestFile.world q "unittest" "TestCase"
               = inr module'
             ∧ In klass' (iter_classes module')
             ∧ is_matching_klass module' klass' = true).
Proof.
  assert (find_python_unittests UnittestFile.world 1 "/tests/test_unit.py"
          = Done [("Plain", [entry "test_x" []])]) as Hrun
    by (vm_compute; reflexivity).
  assert (In "Plain" (odict_keys [("Plain", [entry "test_x" []])])) as Hkey
    by (left; reflexivity).
  split; [reflexivity|split; [exact Hrun|split; [exact Hkey|]]].
  exact (unittest_finder_needs_a_structural_match UnittestFile.world 1
           "/tests/test_unit.py" UnittestFile.file _ "Plain"
           eq_refl Hrun Hkey).
Defined.

(** ** Own methods come first *)

Section Prefix.

Context (w : World).
Context (examine : string → string → bool → outcome Examined).

Lemma same_module_loop_prefix module todo kept info disabled match_ r :
  same_module_loop examine module todo kept info disabled match_ = Done r →
  ∃ added, r.1.1.2 = info ++ added.
Proof.
  revert kept info disabled match_.
  induction todo as [|parent todo IH]; intros kept info disabled match_; simpl.
  { intros [= <-]. exists []. by rewrite app_nil_r. }
  destruct parent as [parent_class| | |]; try apply IH.
  intros Hrun.
  apply bind_Done in Hrun as ([[_info _dis] _m] & _ & Hrun). simpl in Hrun.
  destruct _info as [|test _info]; [by eapply IH|].
  apply IH in Hrun as (added & ->).
  destruct (_extend_test_list_split info (test :: _info))
    as (added' & -> & _).
  exists (added' ++ added). by rewrite app_assoc.
Qed.

Lemma other_module_loop_prefix merge module parents info disabled match_ r :
  (∀ a b, ∃ added, merge a b = a ++ added) →
  other_module_loop w examine merge module parents info disabled match_
    = Done r →
  ∃ added, r.1.1 = info ++ added.
Proof.
  intros Hmerge. revert info disabled match_.
  induction parents as [|parent parents IH]; intros info disabled match_; simpl.
  { intros [= <-]. exists []. by rewrite app_nil_r. }
  destruct (_get_attributes_for_further_examination parent module)
    as [[]|[[parent_path parent_module] parent_class]]; try done;
    try apply IH.
  destruct (find_spec w _ _) as [origin|]; [|apply IH].
  intros Hrun.
  apply bind_Done in Hrun as ([[_info _dis] _m] & _ & Hrun). simpl in Hrun.
  destruct _info as [|test _info]; [by eapply IH|].
  apply IH in Hrun as (added & ->).
  destruct (Hmerge info (test :: _info)) as (added' & ->).
  exists (added' ++ added). by rewrite app_assoc.
Qed.

Lemma examine_class_loop_app determine_match module class_name before after
    info disabled match_ :
  examine_class_loop w determine_match examine module class_name
    (before ++ after) info disabled match_
  = examine_class_loop w determine_match examine module class_name before
      info disabled match_
      ≫= λ r, examine_class_loop w determine_match examine module class_name
                after r.1.1 r.1.2 r.2.
Proof.
  revert info disabled match_.
  induction before as [|klass before IH]; intros info disabled match_; simpl;
    [done|].
  case_bool_decide; [apply IH|].
  destruct (_examine_same_module _ _ _ _ _ _)
    as [[[[parents info1] disabled1] match1]| |]; simpl; [|done..].
  destruct (other_module_loop _ _ _ _ _ _ _ _)
    as [[[info2 disabled2] match2]| |]; simpl; [|done..].
  apply IH.
Qed.

End Prefix.

Lemma extend_appends (a b : list MethodInfo) :
  ∃ added, _extend_test_list a b = a ++ added.
Proof. destruct (_extend_test_list_split a b) as (added & ? & _). eauto. Qed.

(** X19.  In the list recorded for a class whose name no other top-level
    class of the file bears, the class's own methods come first, in the
    order `get_methods_info` found them; whatever is inherited follows. *)
Theorem own_methods_come_first
    (w : World) (target_module target_class : string)
    (determine_match : PythonModule → ClassDef → DirectiveSet → bool)
    (fuel : nat) (p : string) (module : PythonModule)
    (before after : list ClassDef) (klass : ClassDef)
    (result : ResultMap) (disabled : gset string) (info : list MethodInfo) :
  load_module w p target_module target_class = inr module →
  iter_classes module = before ++ klass :: after →
  Forall (λ other, name other ≠ name klass) before →
  Forall (λ other, name other ≠ name klass) after →
  find_python_tests w target_module target_class determine_match fuel p
    = Done (result, disabled) →
  odict_get (name klass) result = Some info →
  ∃ inherited, info = own_methods klass ++ inherited.
Proof.
  intros Hload Hklasses Hbefore Hafter.
  unfold find_python_tests. rewrite Hload, Hklasses.
  rewrite find_python_tests_loop_app. intros Hrun.
  apply bind_Done in Hrun as ([result1 disabled1] & Hfirst & Hrun).
  apply (find_python_tests_loop_other_key _ _ _ _ _ _ _ (name klass)) in Hfirst;
    [|done].
  simpl in Hfirst, Hrun.
  assert (∀ result' disabled',
            find_python_tests_loop w
              (_examine_class w target_module target_class determine_match fuel)
              module after result' disabled' = Done (result, disabled) →
            odict_get (name klass) result = odict_get (name klass) result')
    as Hrest.
  { intros result' disabled' Hloop.
    by apply (find_python_tests_loop_other_key _ _ _ _ _ _ _ (name klass))
      in Hloop. }
  destruct (check_docstring_directive _ "disable").
  { intros Hget. rewrite (Hrest _ _ Hrun), Hfirst in Hget. done. }
  destruct (check_docstring_directive _ "enable").
  { intros Hget. rewrite (Hrest _ _ Hrun), odict_get_set_eq in Hget.
    injection Hget as <-. exists []. by rewrite app_nil_r. }
  apply bind_Done in Hrun
    as ([[[parents info1] disabled1'] match1] & Hsame & Hrun).
  apply bind_Done in Hrun as ([[info2 disabled2] match2] & Hother & Hrun).
  apply same_module_loop_prefix in Hsame as (added1 & Hinfo1).
  apply other_module_loop_prefix in Hother as (added2 & Hinfo2);
    [|intros a b; by exists b].
  simpl in *. subst info1 info2.
  destruct match2; intros Hget; rewrite (Hrest _ _ Hrun) in Hget.
  - rewrite odict_get_set_eq in Hget. injection Hget as <-.
    exists (added1 ++ added2). by rewrite app_assoc.
  - by rewrite Hfirst in Hget.
Qed.

Lemma own_methods_come_first_witness :
  load_module ScenarioC.world "/tests/test_c.py" "avocado" "Test"
    = inr ScenarioC.file
  ∧ iter_classes ScenarioC.file = [ScenarioC.Base] ++ ScenarioC.Child :: []
  ∧ Forall (λ other, name other ≠ name ScenarioC.Child) [ScenarioC.Base]
  ∧ Forall (λ other, name other ≠ name ScenarioC.Child) []
  ∧ find_python_tests ScenarioC.world "avocado" "Test"
      _determine_match_avocado 2 "/tests/test_c.py"
    = Done ([("Base", [entry "test_a" []]);
             ("Child", [entry "test_b" []; entry "test_a" []])], ∅)
  ∧ odict_get (name ScenarioC.Child)
      [("Base", [entry "test_a" []]);
       ("Child", [entry "test_b" []; entry "test_a" []])]
    = Some [entry "test_b" []; entry "test_a" []]
  ∧ ∃ inherited,
      [entry "test_b" []; entry "test_a" []]
      = own_methods ScenarioC.Child ++ inherited.
Proof.
  assert (find_python_tests ScenarioC.world "avocado" "Test"
            _determine_match_avocado 2 "/tests/test_c.py"
          = Done ([("Base", [entry "test_a" []]);
                   ("Child", [entry "test_b" []; entry "test_a" []])], ∅))
    as Hrun by (vm_compute; reflexivity).
  assert (Forall (λ other, name other ≠ name ScenarioC.Child) [ScenarioC.Base])
    as Hbefore by (repeat constructor; discriminate).
  do 2 (split; [reflexivity|]). split; [exact Hbefore|].
  split; [constructor|]. split; [exact Hrun|]. split; [reflexivity|].
  exact (own_methods_come_first ScenarioC.world "avocado" "Test"
           _determine_match_avocado 2 "/tests/test_c.py" ScenarioC.file
           [ScenarioC.Base] [] ScenarioC.Child _ _ _
           eq_refl eq_refl Hbefore (List.Forall_nil _) Hrun eq_refl).
Defined.

(** X20.  When a file holds several classes of the requested name,
    `_examine_class` goes through all of them and the method list it
    returns starts with the own methods of the last one; the lists built
    for the earlier ones are thrown away. *)
Theorem examine_class_last_namesake_wins
    (w : World) (target_module target_class : string)
    (determine_match : PythonModule → ClassDef → DirectiveSet → bool)
    (fuel : nat) (p class_name : string) (module : PythonModule)
    (before after : list ClassDef) (klass : ClassDef) (match_ : bool)
    (info : list MethodInfo) (disabled : gset string) (match' : bool) :
  load_module w p target_module target_class = inr module →
  iter_classes module = before ++ klass :: after →
  name klass = class_name →
  Forall (λ later, name later ≠ class_name) after →
  _examine_class w target_module target_class determine_match fuel
    p class_name match_ = Done (info, disabled, match') →
  ∃ inherited, info = own_methods klass ++ inherited.
Proof.
  intros Hload Hklasses Hname Hafter.
  destruct fuel as [|fuel]; [done|]. simpl. unfold examine_class_body.
  rewrite Hload, Hklasses, examine_class_loop_app. intros Hrun.
  apply bind_Done in Hrun as ([[info0 disabled0] match0] & _ & Hrun).
  simpl in Hrun. rewrite bool_decide_eq_false_2 in Hrun by (by intros []).
  apply bind_Done in Hrun
    as ([[[parents info1] disabled1] match1] & Hsame & Hrun).
  apply bind_Done in Hrun as ([[info2 disabled2] match2] & Hother & Hrun).
  apply same_module_loop_prefix in Hsame as (added1 & Hinfo1).
  apply other_module_loop_prefix in Hother as (added2 & Hinfo2);
    [|apply extend_appends].
  simpl in *. subst info1 info2.
  rewrite examine_class_loop_missing in Hrun by done.
  injection Hrun as <- _ _.
  exists (added1 ++ added2). by rewrite app_assoc.
Qed.

Lemma examine_class_last_namesake_wins_witness :
  load_module (SameName.world_with SameName.enable_twice)
    "/tests/test_foo.py" "avocado" "Test"
    = inr (SameName.file_of SameName.enable_twice)
  ∧ iter_classes (SameName.file_of SameName.enable_twice)
    = [SameName.one_class ["enable"] "test_a"]
        ++ SameName.one_class ["enable"] "test_b" :: []
  ∧ name (SameName.one_class ["enable"] "test_b") = "Foo"
  ∧ Forall (λ later, name later ≠ "Foo") []
  ∧ _examine_class (SameName.world_with SameName.enable_twice)
      "avocado" "Test" _determine_match_avocado 1
      "/tests/test_foo.py" "Foo" false
    = Done ([entry "test_b" []], ∅, true)
  ∧ ∃ inherited,
      [entry "test_b" []]
      = own_methods (SameName.one_class ["enable"] "test_b") ++ inherited.
Proof.
  assert (_examine_class (SameName.world_with SameName.enable_twice)
            "avocado" "Test" _determine_match_avocado 1
            "/tests/test_foo.py" "Foo" false
          = Done ([entry "test_b" []], ∅, true)) as Hrun
    by (vm_compute; reflexivity).
  do 3 (split; [reflexivity|]). split; [constructor|]. split; [exact Hrun|].
  exact (examine_class_last_namesake_wins
           (SameName.world_with SameName.enable_twice) "avocado" "Test"
           _determine_match_avocado 1 "/tests/test_foo.py" "Foo"
           (SameName.file_of SameName.enable_twice)
           [SameName.one_class ["enable"] "test_a"] []
           (SameName.one_class ["enable"] "test_b") false _ _ _
           eq_refl eq_refl eq_refl (List.Forall_nil _) Hrun).
Defined.


(** ** Bases that make discovery fail *)

(** X21.  A class without `enable` or `disable` whose only base is a call
    (`namedtuple(...)`, `with_metaclass(...)`) or a subscript of an
    imported name (`Generic[T]`) makes `find_python_tests` raise
    AttributeError: once the classes before it are dealt with, the whole
    discovery of the file ends with that exception. *)
Theorem unsupported_base_aborts_discovery
    (w : World) (target_module target_class : string)
    (determine_match : PythonModule → ClassDef → DirectiveSet → bool)
    (fuel : nat) (p : string) (module : PythonModule)
    (before after : list ClassDef) (klass : ClassDef) (parent : expr)
    (earlier : ResultMap * gset string) :
  load_module w p target_module target_class = inr module →
  iter_classes module = before ++ klass :: after →
  find_python_tests_loop w
    (_examine_class w target_module target_class determine_match fuel)
    module before [] ∅ = Done earlier →
  check_docstring_directive (get_docstring klass) "disable" = false →
  check_docstring_directive (get_docstring klass) "enable" = false →
  bases klass = [parent] →
  (∃ func, parent = Call func)
  ∨ (∃ id slice _parent,
       parent = Subscript (Name id) slice
       ∧ imported_objects module !! id = Some _parent) →
  find_python_tests w target_module target_class determine_match fuel p
  = Raise AttributeError.
Proof.
  intros Hload Hklasses Hbefore Hdisable Henable Hbases Hparent.
  unfold find_python_tests.
  rewrite Hload, Hklasses, find_python_tests_loop_app, Hbefore. simpl.
  rewrite Hdisable, Henable. unfold _examine_same_module. rewrite Hbases.
  destruct Hparent as [(func & ->)|(id & slice & _parent & -> & Himport)];
    simpl; [done|].
  by rewrite Himport.
Qed.

Lemma unsupported_base_aborts_discovery_witness :
  load_module
    (UnsupportedBase.world_with [Directives.Foo; UnsupportedBase.Box])
    "/tests/test_bases.py" "avocado" "Test"
    = inr (UnsupportedBase.file_of [Directives.Foo; UnsupportedBase.Box])
  ∧ iter_classes (UnsupportedBase.file_of [Directives.Foo; UnsupportedBase.Box])
    = [Directives.Foo] ++ UnsupportedBase.Box :: []
  ∧ find_python_tests_loop
      (UnsupportedBase.world_with [Directives.Foo; UnsupportedBase.Box])
      (_examine_class
         (UnsupportedBase.world_with [Directives.Foo; UnsupportedBase.Box])
         "avocado" "Test" _determine_match_avocado 0)
      (UnsupportedBase.file_of [Directives.Foo; UnsupportedBase.Box])
      [Directives.Foo] [] ∅
    = Done ([("Foo", [entry "test_one" []])], ∅)
  ∧ check_docstring_directive (get_docstring UnsupportedBase.Box) "disable"
    = false
  ∧ check_docstring_directive (get_docstring UnsupportedBase.Box) "enable"
    = false
  ∧ bases UnsupportedBase.Box = [Subscript (Name "Generic") (Name "T")]
  ∧ imported_objects
      (UnsupportedBase.file_of [Directives.Foo; UnsupportedBase.Box])
      !! "Generic" = Some "/tests/typing/Generic"
  ∧ find_python_tests
      (UnsupportedBase.world_with [Directives.Foo; UnsupportedBase.Box])
      "avocado" "Test" _determine_match_avocado 0 "/tests/test_bases.py"
    = Raise AttributeError.
Proof.
  assert (find_python_tests_loop
            (UnsupportedBase.world_with [Directives.Foo; UnsupportedBase.Box])
            (_examine_class
               (UnsupportedBase.world_with [Directives.Foo; UnsupportedBase.Box])
               "avocado" "Test" _determine_match_avocado 0)
            (UnsupportedBase.file_of [Directives.Foo; UnsupportedBase.Box])
            [Directives.Foo] [] ∅
          = Done ([("Foo", [entry "test_one" []])], ∅)) as Hbefore
    by (vm_compute; reflexivity).
  assert (imported_objects
            (UnsupportedBase.file_of [Directives.Foo; UnsupportedBase.Box])
            !! "Generic" = Some "/tests/typing/Generic") as Himport
    by (vm_compute; reflexivity).
  do 2 (split; [reflexivity|]). split; [exact Hbefore|].
  do 3 (split; [reflexivity|]). split; [exact Himport|].
  exact (unsupported_base_aborts_discovery
           (UnsupportedBase.world_with [Directives.Foo; UnsupportedBase.Box])
           "avocado" "Test" _determine_match_avocado 0 "/tests/test_bases.py"
           (UnsupportedBase.file_of [Directives.Foo; UnsupportedBase.Box])
           [Directives.Foo] [] UnsupportedBase.Box
           (Subscript (Name "Generic") (Name "T")) _
           eq_refl eq_refl Hbefore eq_refl eq_refl eq_refl
           (or_intror (ex_intro _ "Generic" (ex_intro _ (Name "T")
              (ex_intro _ "/tests/typing/Generic" (conj eq_refl Himport)))))).
Defined.

(** X22.  A parent file that the module finder locates but that cannot be
    loaded is not passed over: for a class without `enable` or `disable`
    whose base `alias.attr` resolves to such a file, `find_python_tests`
    raises the load error, once the classes before it are dealt with. *)
Theorem broken_parent_file_aborts_discovery
    (w : World) (target_module target_class : string)
    (determine_match : PythonModule → ClassDef → DirectiveSet → bool)
    (fuel : nat) (p : string) (module : PythonModule)
    (before after : list ClassDef) (klass : ClassDef)
    (alias attr _parent origin : string) (e : exn)
    (earlier : ResultMap * gset string) :
  load_module w p target_module target_class = inr module →
  iter_classes module = before ++ klass :: after →
  find_python_tests_loop w
    (_examine_class w target_module target_class determine_match (S fuel))
    module before [] ∅ = Done earlier →
  check_docstring_directive (get_docstring klass) "disable" = false →
  check_docstring_directive (get_docstring klass) "enable" = false →
  bases klass = [Attribute (Name alias) attr] →
  imported_objects module !! alias = Some _parent →
  find_spec w (basename _parent)
    ([dirname _parent; dirname (path module)] ++ sys_path w) = Some origin →
  load_module w origin target_module target_class = inl e →
  find_python_tests w target_module target_class determine_match (S fuel) p
  = Raise e.
Proof.
  intros Hload Hklasses Hbefore Hdisable Henable Hbases Himport Hfind Hbroken.
  unfold find_python_tests.
  rewrite Hload, Hklasses, find_python_tests_loop_app, Hbefore.
  cbn [mbind outcome_mbind outcome_bind find_python_tests_loop].
  rewrite Hdisable, Henable. unfold _examine_same_module. rewrite Hbases.
  cbn [same_module_loop app mbind outcome_mbind outcome_bind
       other_module_loop _get_attributes_for_further_examination].
  rewrite Himport. simpl in Hfind. rewrite Hfind.
  cbn [_examine_class]. unfold examine_class_body. by rewrite Hbroken.
Qed.

Lemma broken_parent_file_aborts_discovery_witness :
  load_module BrokenAncestor.world "/tests/test_child.py" "avocado" "Test"
    = inr BrokenAncestor.file
  ∧ iter_classes BrokenAncestor.file = [] ++ BrokenAncestor.Child :: []
  ∧ find_python_tests_loop BrokenAncestor.world
      (_examine_class BrokenAncestor.world "avocado" "Test"
         _determine_match_avocado 1)
      BrokenAncestor.file [] [] ∅ = Done ([], ∅)
  ∧ check_docstring_directive (get_docstring BrokenAncestor.Child) "disable"
    = false
  ∧ check_docstring_directive (get_docstring BrokenAncestor.Child) "enable"
    = false
  ∧ bases BrokenAncestor.Child = [Attribute (Name "broken") "Base"]
  ∧ imported_objects BrokenAncestor.file !! "broken" = Some "/tests/broken"
  ∧ find_spec BrokenAncestor.world (basename "/tests/broken")
      ([dirname "/tests/broken"; dirname (path BrokenAncestor.file)]
         ++ sys_path BrokenAncestor.world)
    = Some "/tests/broken.py"
  ∧ load_module BrokenAncestor.world "/tests/broken.py" "avocado" "Test"
    = inl ParseError
  ∧ find_python_tests BrokenAncestor.world "avocado" "Test"
      _determine_match_avocado 1 "/tests/test_child.py"
    = Raise ParseError.
Proof.
  do 9 (split; [vm_compute; reflexivity|]).
  exact (broken_parent_file_aborts_discovery BrokenAncestor.world
           "avocado" "Test" _determine_match_avocado 0 "/tests/test_child.py"
           BrokenAncestor.file [] [] BrokenAncestor.Child
           "broken" "Base" "/tests/broken" "/tests/broken.py" ParseError
           ([], ∅) eq_refl eq_refl eq_refl eq_refl eq_refl eq_refl
           eq_refl eq_refl eq_refl).
Defined.

(** ** What _examine_same_module leaves of the parents *)

Lemma same_module_loop_leaves examine module todo kept info disabled match_ r :
  same_module_loop examine module todo kept info disabled match_ = Done r →
  ∃ left_over,
    r.1.1.1 = kept ++ left_over
    ∧ left_over `sublist_of` todo
    ∧ List.filter (λ parent, negb (is_plain_name parent)) left_over
      = List.filter (λ parent, negb (is_plain_name parent)) todo.
Proof.
  revert kept info disabled match_.
  induction todo as [|parent todo IH]; intros kept info disabled match_; simpl.
  { intros [= <-]. exists []. by rewrite app_nil_r. }
  assert (∀ r', (∃ left_over,
                   r' = (kept ++ [parent]) ++ left_over
                   ∧ left_over `sublist_of` todo
                   ∧ List.filter (λ q, negb (is_plain_name q)) left_over
                     = List.filter (λ q, negb (is_plain_name q)) todo) →
            ∃ left_over,
              r' = kept ++ left_over
              ∧ left_over `sublist_of` parent :: todo
              ∧ List.filter (λ q, negb (is_plain_name q)) left_over
                = (if negb (is_plain_name parent)
                   then parent :: List.filter (λ q, negb (is_plain_name q)) todo
                   else List.filter (λ q, negb (is_plain_name q)) todo))
    as Hkeep.
  { intros r' (left_over & -> & Hsub & Hfilter).
    exists (parent :: left_over). split; [by rewrite <- app_assoc|].
    split; [by apply sublist_skip|]. simpl. rewrite Hfilter.
    by destruct (negb (is_plain_name parent)). }
  destruct parent as [parent_class| | |];
    try (intros Hrun; apply Hkeep; by eapply IH).
  intros Hrun.
  apply bind_Done in Hrun as ([[_info _dis] _m] & _ & Hrun). simpl in Hrun.
  destruct _info; [apply Hkeep; by eapply IH|].
  apply IH in Hrun as (left_over & -> & Hsub & Hfilter).
  exists left_over. split; [done|]. split; [by apply sublist_cons|done].
Qed.

(** X23.  `_examine_same_module` removes nothing from `parents` but plain
    names: what it leaves is a sub-sequence of the parents in which every
    parent that is not a plain name still stands, in its place.  So every
    qualified parent is still looked for in the other modules. *)
Theorem examine_same_module_keeps_qualified_parents
    (examine : string → string → bool → outcome Examined)
    (parents : list expr) (info : list MethodInfo) (disabled : gset string)
    (match_ : bool) (module : PythonModule)
    (parents' : list expr) (info' : list MethodInfo)
    (disabled' : gset string) (match' : bool) :
  _examine_same_module examine parents info disabled match_ module
    = Done (parents', info', disabled', match') →
  parents' `sublist_of` parents
  ∧ List.filter (λ parent, negb (is_plain_name parent)) parents'
    = List.filter (λ parent, negb (is_plain_name parent)) parents.
Proof.
  intros Hrun. apply same_module_loop_leaves in Hrun
    as (left_over & Heq & Hsub & Hfilter).
  simpl in Heq. by subst.
Qed.

Lemma examine_same_module_keeps_qualified_parents_witness :
  _examine_same_module
    (_examine_class ScenarioC.world "avocado" "Test" _determine_match_avocado 2)
    [Attribute (Name "pkg") "Mixin"; Name "Base"; Name "Missing"]
    [entry "test_b" []] ∅ false ScenarioC.file
  = Done ([Attribute (Name "pkg") "Mixin"; Name "Missing"],
          [entry "test_b" []; entry "test_a" []], ∅, true)
  ∧ [Attribute (Name "pkg") "Mixin"; Name "Missing"]
      `sublist_of` [Attribute (Name "pkg") "Mixin"; Name "Base"; Name "Missing"]
  ∧ List.filter (λ parent, negb (is_plain_name parent))
      [Attribute (Name "pkg") "Mixin"; Name "Missing"]
    = List.filter (λ parent, negb (is_plain_name parent))
        [Attribute (Name "pkg") "Mixin"; Name "Base"; Name "Missing"].
Proof.
  assert (_examine_same_module
            (_examine_class ScenarioC.world "avocado" "Test"
               _determine_match_avocado 2)
            [Attribute (Name "pkg") "Mixin"; Name "Base"; Name "Missing"]
            [entry "test_b" []] ∅ false ScenarioC.file
          = Done ([Attribute (Name "pkg") "Mixin"; Name "Missing"],
                  [entry "test_b" []; entry "test_a" []], ∅, true)) as Hrun
    by (vm_compute; reflexivity).
  split; [exact Hrun|].
  exact (examine_same_module_keeps_qualified_parents _ _ _ _ _ _ _ _ _ _ Hrun).
Defined.

(** ** A class without bases *)

(** X24.  Where the recursion ends: for a class without bases, the only
    one of its name in the file, `_examine_class` makes no further call
    and returns the class's own methods, an empty disabled set, and as
    match flag True if it was given True, else the answer of
    `determine_match` for that class. *)
Theorem examine_class_without_bases
    (w : World) (target_module target_class : string)
    (determine_match : PythonModule → ClassDef → DirectiveSet → bool)
    (fuel : nat) (p class_name : string) (module : PythonModule)
    (before after : list ClassDef) (klass : ClassDef) (match_ : bool) :
  load_module w p target_module target_class = inr module →
  iter_classes module = before ++ klass :: after →
  Forall (λ other, name other ≠ class_name) before →
  Forall (λ other, name other ≠ class_name) after →
  name klass = class_name →
  bases klass = [] →
  _examine_class w target_module target_class determine_match (S fuel)
    p class_name match_
  = Done (own_methods klass, ∅,
          if match_ then true
          else determine_match module klass (get_docstring klass)).
Proof.
  intros Hload Hklasses Hbefore Hafter Hname Hbases.
  simpl. unfold examine_class_body.
  rewrite Hload, Hklasses, examine_class_loop_app.
  rewrite examine_class_loop_missing by done. simpl.
  rewrite bool_decide_eq_false_2 by (by intros []).
  unfold _examine_same_module. rewrite Hbases. simpl.
  rewrite examine_class_loop_missing by done.
  by destruct match_.
Qed.

Lemma examine_class_without_bases_witness :
  load_module UnittestFile.world "/tests/test_unit.py" "unittest" "TestCase"
    = inr UnittestFile.file
  ∧ iter_classes UnittestFile.file
    = [UnittestFile.Plain] ++ UnittestFile.Other :: []
  ∧ Forall (λ other, name other ≠ "Other") [UnittestFile.Plain]
  ∧ Forall (λ other, name other ≠ "Other") []
  ∧ name UnittestFile.Other = "Other"
  ∧ bases UnittestFile.Other = []
  ∧ _examine_class UnittestFile.world "unittest" "TestCase"
      _determine_match_unittest 1 "/tests/test_unit.py" "Other" false
    = Done (own_methods UnittestFile.Other, ∅,
            _determine_match_unittest UnittestFile.file UnittestFile.Other
              (get_docstring UnittestFile.Other)).
Proof.
  assert (Forall (λ other, name other ≠ "Other") [UnittestFile.Plain])
    as Hbefore by (repeat constructor; discriminate).
  do 2 (split; [reflexivity|]). split; [exact Hbefore|].
  split; [constructor|]. do 2 (split; [reflexivity|]).
  exact (examine_class_without_bases UnittestFile.world "unittest" "TestCase"
           _determine_match_unittest 0 "/tests/test_unit.py" "Other"
           UnittestFile.file [UnittestFile.Plain] [] UnittestFile.Other false
           eq_refl eq_refl Hbefore (List.Forall_nil _) eq_refl eq_refl).
Defined.
